(** * vidcoder4: the video pipeline of [vidcoder4.py], embedded and verified

    The development follows the source file top to bottom:

    - [Py]: the Python built-ins the program relies on ([str.split],
      [str.strip], [str.lower], [str.endswith], [str.replace], [int],
      [str]), over strings of code points below 256;
    - [Exc]: exceptions and the two monads the code is written in, the pure
      one of [convert_timestamp] and [parse_timestamps] and the effectful one
      of [process_videos], whose effects (queue puts, child processes, file
      removal, console output, dialogs) are logged in emission order;
    - the program: [convert_timestamp], [parse_timestamps], [check_ffmpeg],
      the geometry arithmetic, [process_segment], [process_videos] and the
      worker thread of [Application.process_videos];
    - the properties.

    Two modelling conventions are used throughout.  Python's [float] values
    (the progress percentages and the quotient [segment_height * 9 / 8]) are
    rendered as exact rationals [Q]: binary64 rounding is outside the model.
    Whatever the program asks of the outside world (is ffmpeg installed, what
    does the probe report, how long does the combine process run, what does a
    child process return, does the temporary file exist, does its removal
    fail) is read from a record [Env] of oracles. *)

From Stdlib Require Import ZArith QArith Qround List String Ascii Bool Lia Lqa.
From Stdlib Require Import Sorted DecimalString.
Import ListNotations.

Local Open Scope string_scope.
Local Open Scope Z_scope.

(** ** Python built-ins *)

Module Py.

(** [str.isspace] on code points below 256: TAB..CR, FS..US, SPACE, NEL, NBSP. *)
Definition isspace (c : ascii) : bool :=
  let n := nat_of_ascii c in
  ((9 <=? n) && (n <=? 13) || (28 <=? n) && (n <=? 32)
   || (n =? 133) || (n =? 160))%nat.

Fixpoint lstrip (s : string) : string :=
  match s with
  | String c r => if isspace c then lstrip r else s
  | EmptyString => EmptyString
  end.

Fixpoint rstrip (s : string) : string :=
  match s with
  | String c r =>
      match rstrip r with
      | EmptyString => if isspace c then EmptyString else String c EmptyString
      | r' => String c r'
      end
  | EmptyString => EmptyString
  end.

(** [s.strip()] *)
Definition strip (s : string) : string := lstrip (rstrip s).

(** [s.split(sep)] for a one-character separator: never the empty list. *)
Fixpoint split (sep : ascii) (s : string) : list string :=
  match s with
  | EmptyString => [EmptyString]
  | String c r =>
      if Ascii.eqb c sep then EmptyString :: split sep r
      else match split sep r with
           | h :: t => String c h :: t
           | [] => [String c EmptyString]
           end
  end.

(** [s.replace(a, b)] for one-character [a] and [b]. *)
Fixpoint replace (a b : ascii) (s : string) : string :=
  match s with
  | EmptyString => EmptyString
  | String c r => String (if Ascii.eqb c a then b else c) (replace a b r)
  end.

(** [c.lower()] on code points below 256: A..Z and the Latin-1 capitals
    (0xC0..0xDE without the multiplication sign 0xD7) move up by 32. *)
Definition lower_char (c : ascii) : ascii :=
  let n := nat_of_ascii c in
  if ((65 <=? n) && (n <=? 90)
      || (192 <=? n) && (n <=? 222) && negb (n =? 215))%nat
  then ascii_of_nat (n + 32) else c.

Fixpoint lower (s : string) : string :=
  match s with
  | EmptyString => EmptyString
  | String c r => String (lower_char c) (lower r)
  end.

(** [s.endswith(suffix)] *)
Definition endswith (s suffix : string) : bool :=
  let n := String.length s in
  let k := String.length suffix in
  ((k <=? n)%nat && String.eqb (substring (n - k) k s) suffix).

(** [s.endswith((t1, ..., tn))] *)
Definition endswith_any (s : string) (suffixes : list string) : bool :=
  existsb (endswith s) suffixes.

Definition startswith (s pre : string) : bool := String.prefix pre s.

(** Truth value of a string: [bool(s)]. *)
Definition truthy (s : string) : bool :=
  match s with EmptyString => false | _ => true end.

(** Truth value of an attribute that is [None] or a string. *)
Definition truthy_opt (o : option string) : bool :=
  match o with Some s => truthy s | None => false end.

Definition digit_val (c : ascii) : option Z :=
  let n := nat_of_ascii c in
  if ((48 <=? n) && (n <=? 57))%nat then Some (Z.of_nat (n - 48)) else None.

(** [c] matches the regular expression class [\d]: below code point 256 the
    decimal digits are 0..9 only. *)
Definition isdigit (c : ascii) : bool :=
  match digit_val c with Some _ => true | None => false end.

(** The digits of an integer literal: decimal digits, single underscores
    allowed between two digits. [prev] tells whether the previous character
    was a digit. *)
Fixpoint int_digits (s : string) (acc : Z) (prev : bool) : option Z :=
  match s with
  | EmptyString => if prev then Some acc else None
  | String c r =>
      if Ascii.eqb c "_" then
        if prev then int_digits r acc false else None
      else match digit_val c with
           | Some d => int_digits r (10 * acc + d) true
           | None => None
           end
  end.

(** [int(s)] for a string [s], base ten: surrounding whitespace is dropped,
    then an optional sign, then the digits. [None] stands for [ValueError].
    (The interpreter's configurable cap on the length of a decimal literal is
    not part of the model.) *)
Definition int (s : string) : option Z :=
  match strip s with
  | String "+" r => int_digits r 0 false
  | String "-" r => option_map Z.opp (int_digits r 0 false)
  | t => int_digits t 0 false
  end.

(** [str(n)] for an integer [n]. *)
Definition str_of_int (n : Z) : string := NilZero.string_of_int (Z.to_int n).

(** [os.path.join(a, b)] of [posixpath]. *)
Definition path_join (a b : string) : string :=
  if startswith b "/" then b
  else if negb (truthy a) || endswith a "/" then a ++ b
  else a ++ "/" ++ b.

End Py.

(** ** Exceptions and the two monads *)

Module Exc.

Inductive kind : Type :=
| ValueError | RuntimeError | OSError | KeyError | IndexError | OtherError.

(** An exception object: its class and [str(e)]. All classes modelled derive
    from [Exception]. *)
Record exn : Type := Exn { exn_kind : kind; exn_str : string }.

Definition kind_eqb (a b : kind) : bool :=
  match a, b with
  | ValueError, ValueError | RuntimeError, RuntimeError | OSError, OSError
  | KeyError, KeyError | IndexError, IndexError | OtherError, OtherError => true
  | _, _ => false
  end.

(** The result of a call: a returned value or a raised exception. *)
Inductive outcome (A : Type) : Type :=
| Ok (a : A)
| Raise (e : exn).
Arguments Ok {A} a.
Arguments Raise {A} e.

Definition is_raise {A} (r : outcome A) : bool :=
  match r with Raise _ => true | Ok _ => false end.

Definition obind {A B} (m : outcome A) (f : A -> outcome B) : outcome B :=
  match m with Ok a => f a | Raise e => Raise e end.

(** [try: m  except K as e: h e] *)
Definition otry_except {A} (k : kind) (m : outcome A) (h : exn -> outcome A)
  : outcome A :=
  match m with
  | Raise e => if kind_eqb (exn_kind e) k then h e else Raise e
  | Ok a => Ok a
  end.

(** [int(s)] as a call that may raise [ValueError]. *)
Definition int (s : string) : outcome Z :=
  match Py.int s with
  | Some n => Ok n
  | None => Raise (Exn ValueError
                     ("invalid literal for int() with base 10: '" ++ s ++ "'"))
  end.

End Exc.
Import Exc.

Declare Scope pure_scope.
Delimit Scope pure_scope with pure.
Notation "x <- m ;; k" := (obind m (fun x => k))
  (at level 61, m at next level, right associativity) : pure_scope.

(** ** [VideoProcessor.convert_timestamp] *)

Definition convert_timestamp (timestamp : string) : outcome Z :=
  match Py.split ":" timestamp with
  | [minutes_field; seconds_field] =>
      otry_except ValueError
        (minutes <- Exc.int minutes_field ;;
         seconds <- Exc.int seconds_field ;;
         if seconds >=? 60 then
           Raise (Exn ValueError
                    ("Seconds must be less than 60 in timestamp: " ++ timestamp))
         else Ok (minutes * 60 + seconds))%pure
        (fun _ =>
           Raise (Exn ValueError
                    ("Invalid timestamp format: " ++ timestamp
                     ++ ". Use MM:SS format with numbers only.")))
  | _ =>
      Raise (Exn ValueError
               ("Invalid timestamp format: " ++ timestamp ++ ". Use MM:SS format."))
  end.

(** ** [TimeSegment] and [Application.parse_timestamps] *)

Record TimeSegment : Type := mkTimeSegment {
  start : string;  (* Format: "MM:SS" *)
  end_ : string    (* Format: "MM:SS" *)
}.

Definition LF : ascii := "010"%char.

(** [pattern.match(line)] for [pattern = (\d{2}:\d{2})-(\d{2}:\d{2})]: the
    pattern is looked for at the beginning of the line; what follows the
    eleventh character is not inspected. The result is groups 1 and 2. *)
Definition pattern_match (line : string) : option (string * string) :=
  match line with
  | String m1 (String m0 (String c1 (String s1 (String s0 (String h
      (String n1 (String n0 (String c2 (String t1 (String t0 _)))))))))) =>
      if (Py.isdigit m1 && Py.isdigit m0 && Ascii.eqb c1 ":"
          && Py.isdigit s1 && Py.isdigit s0 && Ascii.eqb h "-"
          && Py.isdigit n1 && Py.isdigit n0 && Ascii.eqb c2 ":"
          && Py.isdigit t1 && Py.isdigit t0)%bool
      then Some (String m1 (String m0 (String c1 (String s1 (String s0 "")))),
                 String n1 (String n0 (String c2 (String t1 (String t0 "")))))
      else None
  | _ => None
  end.

(** The body of the [for line in ...] loop, [timestamps] being the list
    accumulated so far. *)
Fixpoint parse_lines (lines : list string) (timestamps : list TimeSegment)
  : outcome (list TimeSegment) :=
  match lines with
  | [] => Ok timestamps
  | line :: rest =>
      let line := Py.strip line in
      if negb (Py.truthy line) then parse_lines rest timestamps
      else
        match pattern_match line with
        | None =>
            Raise (Exn ValueError
                     ("Invalid timestamp format: " ++ line ++ String LF ""
                      ++ "Use MM:SS-MM:SS format (e.g., 00:30-01:00)"))
        | Some (start, end_) =>
            (_ <- convert_timestamp start ;;
             _ <- convert_timestamp end_ ;;
             parse_lines rest (timestamps ++ [mkTimeSegment start end_])%list)%pure
        end
  end.

(** [parse_timestamps], as a function of the content of the text widget. *)
Definition parse_timestamps (text : string) : outcome (list TimeSegment) :=
  (timestamps <- parse_lines (Py.split LF text) [] ;;
   match timestamps with
   | [] => Raise (Exn ValueError "No timestamps provided")
   | _ => Ok timestamps
   end)%pure.

(** ** Effects *)

(** What a run does to the outside world, in the order it does it. *)
Inductive event : Type :=
| StatusPut (s : string)            (* self.status_queue.put(s) *)
| ProgressPut (p : Q)               (* self.progress_queue.put(p) *)
| Popen (command : list string)     (* subprocess.Popen(command, ...) *)
| Run (command : list string)       (* subprocess.run(command, ...) *)
| Remove (path : string)            (* os.remove(path) *)
| Print (s : string)                (* print(s) *)
| ShowError (title msg : string)    (* messagebox.showerror *)
| ShowInfo (title msg : string)     (* messagebox.showinfo *)
| StatusLabel (s : string)          (* self.status_label.config(text=s) *)
| ButtonNormal.                     (* self.process_btn.config(state=tk.NORMAL) *)

(** An effectful computation: its log and its outcome. Nothing the pipeline
    does reads back what it has emitted, so a log is all the state there is. *)
Definition M (A : Type) : Type := (list event * outcome A)%type.

Definition ret {A} (a : A) : M A := ([], Ok a).
Definition raise {A} (e : exn) : M A := ([], Raise e).
Definition emit (ev : event) : M unit := ([ev], Ok tt).
Definition lift {A} (r : outcome A) : M A := ([], r).

Definition bind {A B} (m : M A) (f : A -> M B) : M B :=
  match m with
  | (l1, Ok a) => let (l2, r) := f a in ((l1 ++ l2)%list, r)
  | (l1, Raise e) => (l1, Raise e)
  end.

(** [try: m  except Exception as e: h e] *)
Definition try_except {A} (m : M A) (h : exn -> M A) : M A :=
  match m with
  | (l1, Raise e) => let (l2, r) := h e in ((l1 ++ l2)%list, r)
  | (l1, Ok a) => (l1, Ok a)
  end.

(** [try: m  finally: fin]: an exception of [fin] replaces the outcome of [m]. *)
Definition try_finally {A} (m : M A) (fin : M unit) : M A :=
  let (l1, r) := m in
  let (l2, rf) := fin in
  ((l1 ++ l2)%list, match rf with Raise e => Raise e | Ok _ => r end).

Declare Scope eff_scope.
Delimit Scope eff_scope with eff.
Notation "x <- m ;; k" := (bind m (fun x => k))
  (at level 61, m at next level, right associativity) : eff_scope.
Notation "m ;; k" := (bind m (fun _ => k))
  (at level 61, right associativity) : eff_scope.

(** [time.sleep(secs)]: wall-clock time is not modelled. *)
Definition sleep (secs : Q) : M unit := ret tt.

Definition log {A} (m : M A) : list event := fst m.
Definition result {A} (m : M A) : outcome A := snd m.

(** The values put on the progress queue, oldest first. *)
Fixpoint progress_values (l : list event) : list Q :=
  match l with
  | [] => []
  | ProgressPut p :: r => p :: progress_values r
  | _ :: r => progress_values r
  end.

(** The messages put on the status queue, oldest first. *)
Fixpoint status_values (l : list event) : list string :=
  match l with
  | [] => []
  | StatusPut s :: r => s :: status_values r
  | _ :: r => status_values r
  end.

(** The command lines handed to [subprocess.run], oldest first. *)
Fixpoint runs (l : list event) : list (list string) :=
  match l with
  | [] => []
  | Run c :: r => c :: runs r
  | _ :: r => runs r
  end.

(** The paths [os.remove] was called on, oldest first. *)
Fixpoint removals (l : list event) : list string :=
  match l with
  | [] => []
  | Remove p :: r => p :: removals r
  | _ :: r => removals r
  end.

(** ** The outside world *)

(** One entry of [probe['streams']]. *)
Record stream : Type := mkStream {
  width : option Z;
  height : option Z
}.

Record Env : Type := mkEnv {
  (* [subprocess.run(['ffmpeg', '-version'], check=True)] succeeds *)
  ffmpeg_found : bool;
  (* [ffmpeg.probe(path)['streams']], or the exception of the probe *)
  probe : string -> outcome (list stream);
  (* the exception of [subprocess.Popen], if it raises *)
  popen_error : option exn;
  (* for how many calls [process.poll()] of the combine process is [None] *)
  combine_polls : nat;
  (* [process.returncode] and [stderr.decode()] of the combine process *)
  combine_returncode : Z;
  combine_stderr : string;
  (* [subprocess.run] of segment number [index]: [returncode] and [stderr] *)
  segment_run : Z -> list string -> outcome (Z * string);
  (* [os.path.exists(temp_output)] when the run ends *)
  temp_exists : bool;
  (* the exception of [os.remove(temp_output)], if it raises *)
  remove_error : option exn
}.

(** The attributes of a [VideoProcessor]. *)
Record VideoProcessor : Type := mkVideoProcessor {
  top_video : option string;
  bottom_video : option string;
  audio_file : option string;
  output_dir : option string;
  has_nvidia : bool
}.

(** ** [check_ffmpeg] *)

Definition ffmpeg_not_found_message : string :=
  "FFmpeg is required but not found on your system." ++ String LF (String LF "")
  ++ "Please install FFmpeg:" ++ String LF ""
  ++ "1. Download from https://www.gyan.dev/ffmpeg/builds/ffmpeg-release-essentials.zip"
  ++ String LF ""
  ++ "2. Extract the zip file" ++ String LF ""
  ++ "3. Copy all .exe files from the bin folder to C:\Windows\System32"
  ++ String LF ""
  ++ "4. Restart this application".

Definition check_ffmpeg (env : Env) : M bool :=
  if ffmpeg_found env then ret true
  else (emit (ShowError "FFmpeg Not Found" ffmpeg_not_found_message) ;;
        ret false)%eff.

(** ** Geometry *)

(** [int(x)] for a float [x]: truncation towards zero. *)
Definition int_of_float (x : Q) : Z := Z.quot (Qnum x) (Zpos (Qden x)).

(** Lines 92-95: [(segment_width, segment_height)] from the four probed
    dimensions. [//] is Python's floor division, [/] its true division. *)
Definition plan_geometry (width_top height_top width_bottom height_bottom : Z)
  : Z * Z :=
  let target_height := Z.min height_top height_bottom in
  let segment_height := target_height / 2 in
  let segment_width := int_of_float (inject_Z (segment_height * 9) / 8)%Q in
  (segment_width, segment_height).

(** ** The pipeline *)

Definition BACKSLASH : ascii := "\"%char.

(** [for i in range(n): body i] *)
Fixpoint for_range_from (i : Z) (n : nat) (body : Z -> M unit) : M unit :=
  match n with
  | O => ret tt
  | S n' => (body i ;; for_range_from (i + 1) n' body)%eff
  end.

Definition for_range (n : nat) (body : Z -> M unit) : M unit :=
  for_range_from 0 n body.

(** [int(probe['streams'][0][name])] *)
Definition first_stream (streams : list stream) (field : stream -> option Z)
  (name : string) : outcome Z :=
  match streams with
  | [] => Raise (Exn IndexError "list index out of range")
  | s :: _ =>
      match field s with
      | Some v => Ok v
      | None => Raise (Exn KeyError ("'" ++ name ++ "'"))
      end
  end.

(** Lines 148-154, the loop
    [while process.poll() is None and progress < 98]: [polls] is the number
    of calls of [poll] that still find the child running. *)
Fixpoint monitor_combine (polls : nat) (progress : Q) : M unit :=
  match polls with
  | O => ret tt
  | S polls' =>
      if Qlt_le_dec progress 98 then
        (sleep (1 # 10) ;;
         let progress := (progress + (1 # 10))%Q in
         emit (ProgressPut progress) ;;
         monitor_combine polls' progress)%eff
      else ret tt
  end.

(** Lines 108-143: the command line of the combine step. *)
Definition combine_command (self : VideoProcessor) (top bottom : string)
  (segment_width segment_height : Z)
  (video_encoder encoder_preset temp_output : string) : list string :=
  let w := Py.str_of_int segment_width in
  let h := Py.str_of_int segment_height in
  let crop :=
    "crop=" ++ w ++ ":" ++ h ++ ":(in_w-" ++ w ++ ")/2:(in_h-" ++ h ++ ")/2" in
  let filter :=
    "[0:v]" ++ crop ++ "[top];" ++ "[1:v]" ++ crop ++ "[bottom];"
    ++ "[top][bottom]vstack[v]" in
  (["ffmpeg"; "-hwaccel"; "auto";
    "-i"; Py.replace BACKSLASH "/" top;
    "-i"; Py.replace BACKSLASH "/" bottom]
   ++ match audio_file self with
      | Some audio =>
          if Py.truthy audio then ["-i"; Py.replace BACKSLASH "/" audio] else []
      | None => []
      end
   ++ ["-filter_complex"; filter]
   ++ ["-map"; "[v]"]
   ++ (if Py.truthy_opt (audio_file self) then ["-map"; "2:a"]
       else ["-map"; "0:a"])
   ++ ["-c:v"; video_encoder; "-preset"; encoder_preset; "-c:a"; "aac"; "-y";
       temp_output])%list.

(** Lines 176-197: the output file and the command line of one segment. *)
Definition segment_output_file (out_dir : string) (segment : TimeSegment) : string :=
  Py.replace BACKSLASH "/"
    (Py.path_join out_dir
       ("segment_" ++ Py.replace ":" "." (start segment) ++ "-"
        ++ Py.replace ":" "." (end_ segment) ++ ".mp4")).

Definition segment_command (start_seconds duration : Z)
  (video_encoder encoder_preset temp_output output_file : string) : list string :=
  ["ffmpeg"; "-hwaccel"; "auto";
   "-ss"; Py.str_of_int start_seconds;
   "-i"; temp_output;
   "-t"; Py.str_of_int duration;
   "-c:v"; video_encoder;
   "-preset"; encoder_preset;
   "-c:a"; "aac";
   "-avoid_negative_ts"; "1";
   "-async"; "1";
   "-vsync"; "cfr";
   "-max_muxing_queue_size"; "1024";
   "-y";
   output_file].

(** Lines 204-205: the two ends of the share of segment [index] of [total]
    in the progress bar. *)
Definition progress_start (index total : Z) : Q :=
  (30 + (inject_Z (index - 1) / inject_Z total * 70))%Q.

Definition progress_end (index total : Z) : Q :=
  (30 + (inject_Z index / inject_Z total * 70))%Q.

(** Lines 165-215: the nested function [process_segment], with the
    variables of [process_videos] it closes over as parameters. *)
Definition process_segment (env : Env)
  (out_dir temp_output video_encoder encoder_preset : string)
  (segment : TimeSegment) (index total : Z) : M unit :=
  try_except
    (emit (StatusPut ("Processing segment " ++ Py.str_of_int index ++ "/"
                      ++ Py.str_of_int total ++ "...")) ;;
     start_seconds <- lift (convert_timestamp (start segment)) ;;
     end_seconds <- lift (convert_timestamp (end_ segment)) ;;
     let duration := end_seconds - start_seconds in
     if duration <=? 0 then
       raise (Exn ValueError
                ("Invalid segment duration: " ++ start segment ++ "-"
                 ++ end_ segment))
     else
       let output_file := segment_output_file out_dir segment in
       let command :=
         segment_command start_seconds duration video_encoder encoder_preset
           temp_output output_file in
       emit (Run command) ;;
       process <- lift (segment_run env index command) ;;
       if negb (fst process =? 0) then
         raise (Exn RuntimeError
                  ("FFmpeg Error during segmentation:" ++ String LF ""
                   ++ snd process))
       else
         (* Simulate gradual progress for this segment *)
         let p_start := progress_start index total in
         let p_end := progress_end index total in
         let progress_step := ((p_end - p_start) / 10)%Q in
         for_range 10 (fun i =>
           sleep (1 # 10) ;;
           emit (ProgressPut (p_start + (inject_Z i * progress_step))%Q)) ;;
         emit (ProgressPut p_end))%eff
    (fun e =>
       raise (Exn RuntimeError
                ("Error processing segment " ++ start segment ++ "-"
                 ++ end_ segment ++ ": " ++ exn_str e))).

(** Lines 219-220: [for i, segment in enumerate(segments, 1)], from index [i]. *)
Fixpoint for_segments (body : TimeSegment -> Z -> M unit)
  (segments : list TimeSegment) (i : Z) : M unit :=
  match segments with
  | [] => ret tt
  | segment :: rest => (body segment i ;; for_segments body rest (i + 1))%eff
  end.

(** Lines 224-230: the [finally] clause. *)
Definition cleanup (env : Env) (temp_output : string) : M unit :=
  try_except
    (if temp_exists env then
       (emit (Remove temp_output) ;;
        match remove_error env with
        | Some e => raise e
        | None => ret tt
        end)%eff
     else ret tt)
    (fun e =>
       emit (Print ("Warning: Could not remove temporary file " ++ temp_output
                    ++ ": " ++ exn_str e))).

(** Lines 104-105: the encoder and its preset. *)
Definition video_encoder (self : VideoProcessor) : string :=
  if has_nvidia self then "h264_nvenc" else "libx264".

Definition encoder_preset (self : VideoProcessor) : string :=
  if has_nvidia self then "p1" else "ultrafast".

(** Lines 100-223: the body of the [try] statement. *)
Definition combine_and_segment (env : Env) (self : VideoProcessor)
  (top bottom out_dir temp_output : string) (segment_width segment_height : Z)
  (segments : list TimeSegment) : M unit :=
  (emit (StatusPut "Combining videos...") ;;
   let video_encoder := video_encoder self in
   let encoder_preset := encoder_preset self in
   let command :=
     combine_command self top bottom segment_width segment_height
       video_encoder encoder_preset temp_output in
   (* Start the process *)
   emit (Popen command) ;;
   match popen_error env with Some e => raise e | None => ret tt end ;;
   (* Monitor progress during combining phase *)
   monitor_combine (combine_polls env) 0 ;;
   if negb (combine_returncode env =? 0) then
     raise (Exn RuntimeError
              ("FFmpeg Error:" ++ String LF "" ++ combine_stderr env))
   else
     emit (ProgressPut 30) ;;  (* Progress after combination *)
     let total_segments := Z.of_nat (List.length segments) in
     for_segments
       (fun segment i =>
          process_segment env out_dir temp_output video_encoder encoder_preset
            segment i total_segments)
       segments 1)%eff.

(** Lines 100-230: the [try] statement with its [except] and [finally]
    clauses. *)
Definition try_statement (env : Env) (self : VideoProcessor)
  (top bottom out_dir temp_output : string) (segment_width segment_height : Z)
  (segments : list TimeSegment) : M unit :=
  try_finally
    (try_except
       (combine_and_segment env self top bottom out_dir temp_output
          segment_width segment_height segments)
       (fun e =>
          raise (Exn RuntimeError ("Video processing failed: " ++ exn_str e))))
    (cleanup env temp_output).

(** Line 98: the path of the temporary combined video. *)
Definition temp_output_path (out_dir : string) : string :=
  Py.replace BACKSLASH "/" (Py.path_join out_dir "temp_combined.mp4").

(** [all([self.top_video, self.bottom_video, self.output_dir])], with the
    three values when it holds. *)
Definition required_fields (self : VideoProcessor)
  : option (string * string * string) :=
  match top_video self, bottom_video self, output_dir self with
  | Some top, Some bottom, Some out =>
      if Py.truthy top && Py.truthy bottom && Py.truthy out
      then Some (top, bottom, out) else None
  | _, _, _ => None
  end.

Definition audio_extensions : list string := [".mp3"; ".wav"; ".m4a"; ".aac"].

(** Line 79: the condition under which the audio file is refused. *)
Definition audio_refused (self : VideoProcessor) : bool :=
  match audio_file self with
  | Some audio =>
      Py.truthy audio && negb (Py.endswith_any (Py.lower audio) audio_extensions)
  | None => false
  end.

(** [VideoProcessor.process_videos] *)
Definition process_videos (env : Env) (self : VideoProcessor)
  (segments : list TimeSegment) : M unit :=
  (found <- check_ffmpeg env ;;
   if negb found then ret tt
   else
     match required_fields self with
     | None => raise (Exn ValueError "Missing input files or output directory")
     | Some (top, bottom, out_dir) =>
         (* Check if input files are mp4 *)
         if negb (Py.endswith top ".mp4") || negb (Py.endswith bottom ".mp4")
         then raise (Exn ValueError "Input files must be mp4")
         (* Check audio file if provided *)
         else if audio_refused self
         then raise (Exn ValueError
                       "Audio file must be mp3, wav, m4a, or aac format")
         else
           emit (StatusPut "Analyzing videos...") ;;
           (* Get video dimensions for both videos *)
           probe_top <- lift (probe env top) ;;
           probe_bottom <- lift (probe env bottom) ;;
           width_top <- lift (first_stream probe_top width "width") ;;
           height_top <- lift (first_stream probe_top height "height") ;;
           width_bottom <- lift (first_stream probe_bottom width "width") ;;
           height_bottom <- lift (first_stream probe_bottom height "height") ;;
           let '(segment_width, segment_height) :=
             plan_geometry width_top height_top width_bottom height_bottom in
           let temp_output := temp_output_path out_dir in
           try_statement env self top bottom out_dir temp_output
             segment_width segment_height segments
     end)%eff.

(** [process_thread], the worker of [Application.process_videos]; the
    callbacks handed to [self.after] are logged in the order they are queued. *)
Definition process_thread (env : Env) (self : VideoProcessor)
  (timestamps : list TimeSegment) : M unit :=
  try_finally
    (try_except
       (process_videos env self timestamps ;;
        emit (StatusLabel "Complete!") ;;
        emit (ShowInfo "Success" "Video processing complete!"))%eff
       (fun e =>
          emit (StatusLabel "Error!") ;;
          emit (ShowError "Error" (exn_str e)))%eff)
    (emit ButtonNormal).

(** ** Notions of the specification *)

(** "Valid MM:SS text": two decimal digits, a colon, two decimal digits that
    read as less than sixty. *)
Definition valid_mmss (t : string) : bool :=
  match t with
  | String m1 (String m0 (String c (String s1 (String s0 EmptyString)))) =>
      match Py.digit_val m1, Py.digit_val m0, Py.digit_val s1, Py.digit_val s0 with
      | Some _, Some _, Some a, Some b => Ascii.eqb c ":" && (10 * a + b <? 60)
      | _, _, _, _ => false
      end
  | _ => false
  end.

Definition digit_char (d : Z) : ascii := ascii_of_nat (48 + Z.to_nat d).

Definition two_digits (n : Z) : string :=
  String (digit_char (n / 10)) (String (digit_char (n mod 10)) EmptyString).

(** "Formatting the integer back to MM:SS": minutes and seconds of [n], each
    on two digits. The program has no such function; this is the inverse the
    specification speaks of. *)
Definition format_mmss (n : Z) : string :=
  two_digits (n / 60) ++ ":" ++ two_digits (n mod 60).

(** The round trip through [format_mmss] and [convert_timestamp] at [n]. *)
Definition roundtrip_ok (n : Z) : bool :=
  valid_mmss (format_mmss n)
  && match convert_timestamp (format_mmss n) with
     | Ok k => k =? n
     | Raise _ => false
     end.

(** A line "matches the pattern in its entirety": the pattern matches and
    nothing follows the match. *)
Definition pattern_fullmatch (line : string) : bool :=
  match pattern_match line with
  | Some _ => (String.length line =? 11)%nat
  | None => false
  end.

(** The same world, except for what [os.remove] does. *)
Definition with_remove_error (env : Env) (err : option exn) : Env :=
  mkEnv (ffmpeg_found env) (probe env) (popen_error env) (combine_polls env)
    (combine_returncode env) (combine_stderr env) (segment_run env)
    (temp_exists env) err.

(** The values lines 208-212 put on the progress queue for segment [index]
    of [total]: ten ticks and the end of the span. *)
Definition segment_ramp (index total : Z) : list Q :=
  let p_start := progress_start index total in
  let p_end := progress_end index total in
  let progress_step := ((p_end - p_start) / 10)%Q in
  (map (fun i => (p_start + (inject_Z i * progress_step))%Q)
     [0; 1; 2; 3; 4; 5; 6; 7; 8; 9] ++ [p_end])%list.

(** The status message of segment [index] of [total]. *)
Definition segment_status (index total : Z) : string :=
  "Processing segment " ++ Py.str_of_int index ++ "/" ++ Py.str_of_int total
  ++ "...".

(** A world and a processor used to exercise the theorems: ffmpeg is there,
    both inputs are 1920x1080, the combine process is seen running by three
    polls, every child process exits with 0, the temporary file exists at
    the end and can be removed. *)
Definition sample_env : Env :=
  mkEnv true (fun _ => Ok [mkStream (Some 1920) (Some 1080)]) None 3 0 ""
    (fun _ _ => Ok (0, "")) true None.

Definition sample_processor : VideoProcessor :=
  mkVideoProcessor (Some "top.mp4") (Some "bottom.mp4") None (Some "out") false.

Definition sample_segments : list TimeSegment :=
  [mkTimeSegment "00:00" "00:30"; mkTimeSegment "00:30" "01:00";
   mkTimeSegment "01:00" "01:30"].

(** The loop of lines 219-220 as [process_videos] runs it, from index [i]. *)
Definition segment_loop (env : Env) (self : VideoProcessor)
  (out_dir : string) (segments : list TimeSegment) (i total : Z) : M unit :=
  for_segments
    (fun segment i =>
       process_segment env out_dir (temp_output_path out_dir)
         (video_encoder self) (encoder_preset self) segment i total)
    segments i.

(** The run gets as far as the segment loop: ffmpeg is found, the job passes
    validation, both probes report their dimensions, and the combine process
    starts and exits with 0. *)
Definition reaches_segment_loop (env : Env) (self : VideoProcessor)
  (out_dir : string) : Prop :=
  ffmpeg_found env = true
  /\ (exists top bottom streams_top streams_bottom wt ht wb hb,
        required_fields self = Some (top, bottom, out_dir)
        /\ Py.endswith top ".mp4" = true
        /\ Py.endswith bottom ".mp4" = true
        /\ audio_refused self = false
        /\ probe env top = Ok streams_top
        /\ probe env bottom = Ok streams_bottom
        /\ first_stream streams_top width "width" = Ok wt
        /\ first_stream streams_top height "height" = Ok ht
        /\ first_stream streams_bottom width "width" = Ok wb
        /\ first_stream streams_bottom height "height" = Ok hb)
  /\ popen_error env = None
  /\ combine_returncode env = 0.

(** The error a segment with no positive duration ends the run with. *)
Definition invalid_duration_error (segment : TimeSegment) : exn :=
  Exn RuntimeError
    ("Video processing failed: Error processing segment " ++ start segment
     ++ "-" ++ end_ segment ++ ": Invalid segment duration: " ++ start segment
     ++ "-" ++ end_ segment).


(** The sample world with a combine process that 301 polls see running. *)
Definition slow_env : Env :=
  mkEnv true (probe sample_env) None 301 0 "" (segment_run sample_env) true None.

(** A job whose second range ends before it starts. *)
Definition backwards_segment : TimeSegment := mkTimeSegment "00:30" "00:10".

(** ** Further notions *)

(** A line that is not blank once trimmed. *)
Definition nonblank (line : string) : bool := Py.truthy (Py.strip line).

(** The range a line begins with, if it begins with one. *)
Definition range_of_line (line : string) : option TimeSegment :=
  match pattern_match (Py.strip line) with
  | Some (a, b) => Some (mkTimeSegment a b)
  | None => None
  end.

(** The text [d1 d0 : e1 e0] of four characters around a colon. *)
Definition mmss_text (m1 m0 s1 s0 : ascii) : string :=
  String m1 (String m0 (String ":" (String s1 (String s0 EmptyString)))).

(** The message of the format error of [parse_timestamps] for a line. *)
Definition line_format_error (line : string) : exn :=
  Exn ValueError
    ("Invalid timestamp format: " ++ line ++ String LF ""
     ++ "Use MM:SS-MM:SS format (e.g., 00:30-01:00)").

(** Both ends of a segment are valid MM:SS texts. *)
Definition valid_segment (segment : TimeSegment) : bool :=
  valid_mmss (start segment) && valid_mmss (end_ segment).

(** [MM.SS], the way a valid MM:SS text appears in a file name. *)
Definition dotted (m1 m0 s1 s0 : ascii) : string :=
  String m1 (String m0 (String "." (String s1 (String s0 EmptyString)))).

(** The command lines of all child processes started, oldest first. *)
Fixpoint spawned (l : list event) : list (list string) :=
  match l with
  | [] => []
  | Popen c :: r => c :: spawned r
  | Run c :: r => c :: spawned r
  | _ :: r => spawned r
  end.

(** The error [process_segment] raises for a segment, around the message of
    the underlying exception. *)
Definition segment_error (segment : TimeSegment) (msg : string) : exn :=
  Exn RuntimeError
    ("Error processing segment " ++ start segment ++ "-" ++ end_ segment
     ++ ": " ++ msg).

(** The extraction command of a segment whose two ends convert. *)
Definition extraction_command (self : VideoProcessor) (out_dir : string)
  (segment : TimeSegment) : list string :=
  match convert_timestamp (start segment), convert_timestamp (end_ segment) with
  | Ok s, Ok e =>
      segment_command s (e - s) (video_encoder self) (encoder_preset self)
        (temp_output_path out_dir) (segment_output_file out_dir segment)
  | _, _ => []
  end.


(** The status messages of a complete run over [n] segments. *)
Definition all_statuses (n : nat) : list string :=
  "Analyzing videos..." :: "Combining videos..."
  :: map (fun k => segment_status (Z.of_nat k) (Z.of_nat n)) (seq 1 n).

(** The two ends of a segment convert and the end is after the start. *)
Definition positive_duration (segment : TimeSegment) : Prop :=
  exists s e,
    convert_timestamp (start segment) = Ok s
    /\ convert_timestamp (end_ segment) = Ok e
    /\ s < e.

(** What the segment loop over [segs] from index [i] leaves behind: the
    status messages of the [k] segments it started, the extraction commands
    of the first [r] of them, each for a segment of positive duration; all of
    them when the loop returns, and the error of segment [k] when it raises. *)
Definition loop_trace (self : VideoProcessor) (out_dir : string)
  (segs : list TimeSegment) (i total : Z) (m : M unit) (k r : nat) : Prop :=
  (r <= k <= List.length segs)%nat /\ (k <= r + 1)%nat
  /\ status_values (log m)
     = map (fun j => segment_status (i + Z.of_nat j) total) (seq 0 k)
  /\ runs (log m) = map (extraction_command self out_dir) (firstn r segs)
  /\ spawned (log m) = runs (log m)
  /\ Forall positive_duration (firstn r segs)
  /\ (result m = Ok tt -> k = List.length segs /\ r = List.length segs)
  /\ (forall e, result m = Raise e ->
      exists seg msg,
        nth_error segs (Nat.pred k) = Some seg /\ (1 <= k)%nat
        /\ e = segment_error seg msg).

(** The error the [except] clause of [process_videos] raises around the
    message of the underlying exception. *)
Definition run_error (msg : string) : exn :=
  Exn RuntimeError ("Video processing failed: " ++ msg).



(** The directory part of the paths [process_videos] writes to: the output
    directory with its separator, slashes forward. *)
Definition output_prefix (out_dir : string) : string :=
  Py.replace BACKSLASH "/"
    (if negb (Py.truthy out_dir) || Py.endswith out_dir "/"
     then out_dir else out_dir ++ "/").

(** The string holds no backslash. *)
Fixpoint no_backslash (s : string) : bool :=
  match s with
  | EmptyString => true
  | String c r => negb (Ascii.eqb c BACKSLASH) && no_backslash r
  end.

(** Two lines of ranges around a blank line, and the same with a line that
    is no range. *)
Definition sample_text : string :=
  "00:10-00:40" ++ String LF "" ++ "   " ++ String LF "" ++ "01:00-01:30"
  ++ String LF "".

Definition sample_bad_text : string :=
  "00:10-00:40" ++ String LF "" ++ "bad-line" ++ String LF "" ++ "01:00-01:30"
  ++ String LF "".

(** The sample world with a combine process that exits with 1. *)
Definition failing_combine_env : Env :=
  mkEnv true (probe sample_env) None 3 1 "Invalid data found"
    (segment_run sample_env) true None.


(** The sample world in which the extraction of segment 2 exits with 1. *)
Definition failing_segment_env : Env :=
  mkEnv true (probe sample_env) None 3 0 ""
    (fun index _ => if index =? 2 then Ok (1, "No space left") else Ok (0, ""))
    true None.

(** * Properties *)

(** ** The effect monad *)

Lemma eta {A} (m : M A) : m = (log m, result m).
Proof. now destruct m. Qed.

Lemma bind_ret {A B} (a : A) (k : A -> M B) : bind (ret a) k = k a.
Proof. unfold bind, ret. now destruct (k a). Qed.

Lemma bind_raise {A B} (e : exn) (k : A -> M B) : bind (raise e) k = raise e.
Proof. reflexivity. Qed.

Lemma bind_emit {B} (ev : event) (k : unit -> M B) :
  bind (emit ev) k = (ev :: log (k tt), result (k tt)).
Proof. unfold bind, emit. now destruct (k tt). Qed.

Lemma bind_lift_ok {A B} (a : A) (k : A -> M B) : bind (lift (Ok a)) k = k a.
Proof. apply bind_ret. Qed.

Lemma bind_lift_raise {A B} (e : exn) (k : A -> M B) :
  bind (lift (Raise e)) k = raise e.
Proof. reflexivity. Qed.

Lemma bind_pair {A B} (l : list event) (r : outcome A) (k : A -> M B) :
  bind (l, r) k
  = match r with
    | Ok a => ((l ++ log (k a))%list, result (k a))
    | Raise e => (l, Raise e)
    end.
Proof. unfold bind. destruct r as [a|e]; [now destruct (k a) | reflexivity]. Qed.

Lemma bind_assoc {A B C} (m : M A) (f : A -> M B) (g : B -> M C) :
  bind (bind m f) g = bind m (fun a => bind (f a) g).
Proof.
  destruct m as [l [a|e]]; [|reflexivity].
  unfold bind. destruct (f a) as [l2 [b|e2]]; [|reflexivity].
  destruct (g b) as [l3 r3]. now rewrite app_assoc.
Qed.

Lemma try_except_pair {A} (l : list event) (r : outcome A) (h : exn -> M A) :
  try_except (l, r) h
  = match r with
    | Ok a => (l, Ok a)
    | Raise e => ((l ++ log (h e))%list, result (h e))
    end.
Proof.
  unfold try_except. destruct r as [a|e]; [reflexivity | now destruct (h e)].
Qed.

Lemma try_finally_pair {A} (l : list event) (r : outcome A) (fin : M unit) :
  try_finally (l, r) fin
  = ((l ++ log fin)%list,
     match result fin with Raise e => Raise e | Ok _ => r end).
Proof. unfold try_finally. now destruct fin. Qed.

Lemma progress_values_app l1 l2 :
  progress_values (l1 ++ l2) = (progress_values l1 ++ progress_values l2)%list.
Proof.
  induction l1 as [|ev l1 IH]; [reflexivity|].
  destruct ev; cbn; rewrite IH; reflexivity.
Qed.

Lemma status_values_app l1 l2 :
  status_values (l1 ++ l2) = (status_values l1 ++ status_values l2)%list.
Proof.
  induction l1 as [|ev l1 IH]; [reflexivity|].
  destruct ev; cbn; rewrite IH; reflexivity.
Qed.

Lemma runs_app l1 l2 : runs (l1 ++ l2) = (runs l1 ++ runs l2)%list.
Proof.
  induction l1 as [|ev l1 IH]; [reflexivity|].
  destruct ev; cbn; rewrite IH; reflexivity.
Qed.

Lemma removals_app l1 l2 : removals (l1 ++ l2) = (removals l1 ++ removals l2)%list.
Proof.
  induction l1 as [|ev l1 IH]; [reflexivity|].
  destruct ev; cbn; rewrite IH; reflexivity.
Qed.

(** ** Timestamps *)

Example convert_timestamp_01_30 : convert_timestamp "01:30" = Ok 90.
Proof. reflexivity. Qed.

Example convert_timestamp_00_75 :
  convert_timestamp "00:75"
  = Raise (Exn ValueError
      "Invalid timestamp format: 00:75. Use MM:SS format with numbers only.").
Proof. reflexivity. Qed.

Example convert_timestamp_three_fields :
  convert_timestamp "1:02:03"
  = Raise (Exn ValueError "Invalid timestamp format: 1:02:03. Use MM:SS format.").
Proof. reflexivity. Qed.

Example convert_timestamp_signed : convert_timestamp "-1: +0_5 " = Ok (-55).
Proof. reflexivity. Qed.

Lemma convert_timestamp_raises_ValueError timestamp e :
  convert_timestamp timestamp = Raise e -> exn_kind e = ValueError.
Proof.
  unfold convert_timestamp.
  destruct (Py.split ":" timestamp) as [|mf [|sf [|x l]]];
    try (intros [= <-]; reflexivity).
  unfold Exc.int.
  destruct (Py.int mf) as [minutes|]; [|intros [= <-]; reflexivity].
  destruct (Py.int sf) as [seconds|]; [|intros [= <-]; reflexivity].
  cbn. destruct (seconds >=? 60); [intros [= <-]; reflexivity | discriminate].
Qed.

(** C2. [convert_timestamp] returns [minutes*60+seconds] whenever the text
    splits at colons into exactly two fields that [int] reads as integers,
    the second below sixty; it raises exactly when the number of fields is
    not two, a field is not an integer literal, or the seconds are sixty or
    more; and what it raises is a [ValueError]. *)
Theorem convert_timestamp_contract (timestamp : string) :
  (forall mf sf minutes seconds,
      Py.split ":" timestamp = [mf; sf] ->
      Py.int mf = Some minutes -> Py.int sf = Some seconds -> seconds < 60 ->
      convert_timestamp timestamp = Ok (minutes * 60 + seconds))
  /\ (is_raise (convert_timestamp timestamp) = true
      <-> (List.length (Py.split ":" timestamp) <> 2%nat
           \/ exists mf sf,
               Py.split ":" timestamp = [mf; sf]
               /\ (Py.int mf = None \/ Py.int sf = None
                   \/ exists seconds, Py.int sf = Some seconds /\ 60 <= seconds)))
  /\ (forall e, convert_timestamp timestamp = Raise e -> exn_kind e = ValueError).
Proof.
  split; [|split; [|apply convert_timestamp_raises_ValueError]].
  - intros mf sf minutes seconds Hs Hm Hsec Hlt.
    unfold convert_timestamp, Exc.int. rewrite Hs, Hm, Hsec. cbn.
    destruct (seconds >=? 60) eqn:E; [lia | reflexivity].
  - unfold convert_timestamp, Exc.int.
    destruct (Py.split ":" timestamp) as [|mf [|sf [|x l]]]; cbn [List.length].
    + split; [left; lia | reflexivity].
    + split; [left; lia | reflexivity].
    + destruct (Py.int mf) as [minutes|] eqn:Hm.
      * destruct (Py.int sf) as [seconds|] eqn:Hsec; cbn.
        -- destruct (seconds >=? 60) eqn:E; cbn.
           ++ split; [|reflexivity]. intros _. right. exists mf, sf.
              split; [reflexivity|]. right. right. exists seconds. split; [easy|lia].
           ++ split; [discriminate|].
              intros [H | (mf' & sf' & [= <- <-] & [H | [H | (s' & H & Hge)]])];
                try congruence; try lia.
              rewrite Hsec in H. injection H as <-. lia.
        -- split; [|reflexivity]. intros _. right. exists mf, sf. auto.
      * cbn. split; [|reflexivity]. intros _. right. exists mf, sf. auto.
    + split; [left; lia | reflexivity].
Qed.

Lemma convert_timestamp_contract_witness : convert_timestamp "07:05" = Ok 425.
Proof.
  exact (proj1 (convert_timestamp_contract "07:05") "07" "05" 7 5
           eq_refl eq_refl eq_refl eq_refl).
Defined.

Lemma digit_val_char c d :
  Py.digit_val c = Some d -> 0 <= d <= 9 /\ c = digit_char d.
Proof.
  destruct c as [[] [] [] [] [] [] [] []]; vm_compute;
    (discriminate || (intros [= <-]; split; [split; discriminate | reflexivity])).
Qed.

Lemma roundtrip_all :
  forallb roundtrip_ok (map Z.of_nat (seq 0 (Z.to_nat 6000))) = true.
Proof. vm_compute. reflexivity. Qed.

Lemma roundtrip_below_6000 n : 0 <= n < 6000 -> roundtrip_ok n = true.
Proof.
  intros Hn. pose proof roundtrip_all as H.
  rewrite forallb_forall in H. apply H.
  rewrite <- (Z2Nat.id n) by lia. apply in_map, in_seq. lia.
Qed.

Lemma valid_mmss_format t :
  valid_mmss t = true -> exists n, 0 <= n < 6000 /\ t = format_mmss n.
Proof.
  destruct t as [|m1 [|m0 [|c [|s1 [|s0 [|x r]]]]]]; try discriminate.
  cbn [valid_mmss].
  destruct (Py.digit_val m1) as [a|] eqn:Ha; [|discriminate].
  destruct (Py.digit_val m0) as [b|] eqn:Hb; [|discriminate].
  destruct (Py.digit_val s1) as [u|] eqn:Hu; [|discriminate].
  destruct (Py.digit_val s0) as [v|] eqn:Hv; [|discriminate].
  intros H. apply andb_prop in H as [Hc Hlt].
  apply Ascii.eqb_eq in Hc. apply Z.ltb_lt in Hlt.
  apply digit_val_char in Ha as [Ba ->], Hb as [Bb ->],
    Hu as [Bu ->], Hv as [Bv ->].
  subst c. exists (60 * (10 * a + b) + (10 * u + v)). split; [lia|].
  unfold format_mmss, two_digits.
  replace ((60 * (10 * a + b) + (10 * u + v)) / 60) with (10 * a + b)
    by (apply Z.div_unique with (10 * u + v); lia).
  replace ((60 * (10 * a + b) + (10 * u + v)) mod 60) with (10 * u + v)
    by (apply Z.mod_unique with (10 * a + b); lia).
  replace ((10 * a + b) / 10) with a by (apply Z.div_unique with b; lia).
  replace ((10 * a + b) mod 10) with b by (apply Z.mod_unique with a; lia).
  replace ((10 * u + v) / 10) with u by (apply Z.div_unique with v; lia).
  replace ((10 * u + v) mod 10) with v by (apply Z.mod_unique with u; lia).
  reflexivity.
Qed.

Lemma roundtrip_ok_inv n :
  roundtrip_ok n = true ->
  valid_mmss (format_mmss n) = true /\ convert_timestamp (format_mmss n) = Ok n.
Proof.
  unfold roundtrip_ok. intros H. apply andb_prop in H as [Hv Hc].
  split; [exact Hv|].
  destruct (convert_timestamp (format_mmss n)) as [k|]; [|discriminate].
  apply Z.eqb_eq in Hc. now subst.
Qed.

(** C4, as amended. On the valid MM:SS texts [convert_timestamp] is a
    bijection onto the integers from 0 to 5999 = 99*60+59, with
    [format_mmss] as its inverse: every valid text converts to such an
    integer, which formats back to the text; every such integer formats to a
    valid text, which converts back to the integer; and two valid texts with
    the same value are the same text. *)
Theorem convert_timestamp_bijection :
  (forall t, valid_mmss t = true ->
     exists n, convert_timestamp t = Ok n /\ 0 <= n < 6000 /\ format_mmss n = t)
  /\ (forall n, 0 <= n < 6000 ->
        valid_mmss (format_mmss n) = true
        /\ convert_timestamp (format_mmss n) = Ok n)
  /\ (forall t1 t2, valid_mmss t1 = true -> valid_mmss t2 = true ->
        convert_timestamp t1 = convert_timestamp t2 -> t1 = t2).
Proof.
  assert (Hback : forall n, 0 <= n < 6000 ->
            valid_mmss (format_mmss n) = true
            /\ convert_timestamp (format_mmss n) = Ok n).
  { intros n Hn. apply roundtrip_ok_inv, roundtrip_below_6000, Hn. }
  split; [|split; [exact Hback|]].
  - intros t Ht. destruct (valid_mmss_format t Ht) as (n & Hn & ->).
    exists n. destruct (Hback n Hn) as [_ Hc]. auto.
  - intros t1 t2 H1 H2 Heq.
    destruct (valid_mmss_format t1 H1) as (n1 & Hn1 & ->).
    destruct (valid_mmss_format t2 H2) as (n2 & Hn2 & ->).
    destruct (Hback n1 Hn1) as [_ E1]. destruct (Hback n2 Hn2) as [_ E2].
    rewrite E1, E2 in Heq. now injection Heq as ->.
Qed.

Lemma convert_timestamp_bijection_witness :
  exists n, convert_timestamp "59:59" = Ok n /\ 0 <= n < 6000
            /\ format_mmss n = "59:59".
Proof.
  exact (proj1 convert_timestamp_bijection "59:59" eq_refl).
Defined.

(** C4, as stated, fails: the valid text 99:59 converts to 5999, which is
    not below 4000. *)
Lemma convert_timestamp_exceeds_4000 :
  valid_mmss "99:59" = true
  /\ convert_timestamp "99:59" = Ok 5999
  /\ ~ (5999 < 4000).
Proof. repeat split. lia. Qed.

(** ** Geometry *)




(** ** Parsing the list of ranges *)

Lemma parse_lines_skips_blank line rest timestamps :
  Py.strip line = "" ->
  parse_lines (line :: rest) timestamps = parse_lines rest timestamps.
Proof. intros H. cbn. now rewrite H. Qed.

Lemma parse_lines_rejects line rest timestamps :
  Py.strip line <> "" -> pattern_match (Py.strip line) = None ->
  parse_lines (line :: rest) timestamps
  = Raise (Exn ValueError
             ("Invalid timestamp format: " ++ Py.strip line ++ String LF ""
              ++ "Use MM:SS-MM:SS format (e.g., 00:30-01:00)")).
Proof.
  intros Hne Hm. cbn. rewrite Hm.
  destruct (Py.strip line); [congruence | reflexivity].
Qed.

Lemma parse_lines_all_blank lines timestamps :
  (forall line, In line lines -> Py.strip line = "") ->
  parse_lines lines timestamps = Ok timestamps.
Proof.
  induction lines as [|line rest IH]; intros H; [reflexivity|].
  rewrite parse_lines_skips_blank by (apply H; now left).
  apply IH. intros l Hl. apply H. now right.
Qed.

Lemma parse_timestamps_no_lines text :
  (forall line, In line (Py.split LF text) -> Py.strip line = "") ->
  parse_timestamps text = Raise (Exn ValueError "No timestamps provided").
Proof.
  intros H. unfold parse_timestamps. now rewrite parse_lines_all_blank.
Qed.

(** C3, at the failing input. The line [00:00-00:30junk] is not blank and
    does not match the pattern in its entirety, yet the parse succeeds and
    keeps the range the line begins with. *)
Theorem parse_timestamps_accepts_trailing_text :
  Py.strip "00:00-00:30junk" = "00:00-00:30junk"
  /\ pattern_fullmatch "00:00-00:30junk" = false
  /\ parse_timestamps ("00:00-00:30junk" ++ String LF "")
     = Ok [mkTimeSegment "00:00" "00:30"].
Proof. repeat split. Qed.

(** ** Strings *)

Lemma length_app (a b : string) :
  String.length (a ++ b) = (String.length a + String.length b)%nat.
Proof. induction a as [|c a IH]; cbn; [reflexivity | now rewrite IH]. Qed.

Lemma substring_whole (b : string) : substring 0 (String.length b) b = b.
Proof. induction b as [|c b IH]; cbn; [reflexivity | now rewrite IH]. Qed.

Lemma substring_app_skip (a b : string) :
  substring (String.length a) (String.length b) (a ++ b) = b.
Proof. induction a as [|c a IH]; cbn; [apply substring_whole | exact IH]. Qed.

Lemma endswith_app_same_length (stem ext suffix : string) :
  String.length ext = String.length suffix ->
  Py.endswith (stem ++ ext) suffix = String.eqb ext suffix.
Proof.
  intros Hlen. unfold Py.endswith. rewrite length_app, <- Hlen.
  replace (String.length stem + String.length ext - String.length ext)%nat
    with (String.length stem) by lia.
  rewrite substring_app_skip.
  replace (String.length ext <=? String.length stem + String.length ext)%nat
    with true by (symmetry; apply Nat.leb_le; lia).
  reflexivity.
Qed.

Lemma endswith_app (stem suffix : string) :
  Py.endswith (stem ++ suffix) suffix = true.
Proof.
  rewrite endswith_app_same_length by reflexivity. apply String.eqb_refl.
Qed.

Lemma lower_length (s : string) : String.length (Py.lower s) = String.length s.
Proof. induction s as [|c s IH]; cbn; [reflexivity | now rewrite IH]. Qed.

Lemma lower_app (a b : string) : Py.lower (a ++ b) = Py.lower a ++ Py.lower b.
Proof. induction a as [|c a IH]; cbn; [reflexivity | now rewrite IH]. Qed.

(** ** Validation *)

Lemma audio_accepted_any_case (self : VideoProcessor) (stem ext : string) :
  audio_file self = Some (stem ++ ext) ->
  In (Py.lower ext) audio_extensions ->
  audio_refused self = false.
Proof.
  intros Ha Hin. unfold audio_refused. rewrite Ha.
  apply andb_false_iff. right. apply negb_false_iff.
  unfold Py.endswith_any. apply existsb_exists.
  exists (Py.lower ext). split; [exact Hin|].
  rewrite lower_app. apply endswith_app.
Qed.

(** C10. With ffmpeg present and the three required attributes set: a
    primary video path whose extension is [.mp4] in some other letter case
    ([.MP4], [.Mp4], ...) makes [process_videos] raise the validation error
    before anything else happens; while an audio path whose extension is
    [.mp3], [.wav], [.m4a] or [.aac] in any letter case passes the audio
    check, so that with two [.mp4] videos the run goes on to analysing them. *)
Theorem extension_checks_case (env : Env) (self : VideoProcessor)
  (segments : list TimeSegment) (top bottom out_dir stem ext : string) :
  ffmpeg_found env = true ->
  required_fields self = Some (top, bottom, out_dir) ->
  ((top = stem ++ ext \/ bottom = stem ++ ext) ->
   Py.lower ext = ".mp4" -> ext <> ".mp4" ->
   process_videos env self segments
   = ([], Raise (Exn ValueError "Input files must be mp4")))
  /\ (audio_file self = Some (stem ++ ext) ->
      In (Py.lower ext) audio_extensions ->
      audio_refused self = false
      /\ (Py.endswith top ".mp4" = true -> Py.endswith bottom ".mp4" = true ->
          exists l r,
            process_videos env self segments
            = (StatusPut "Analyzing videos..." :: l, r))).
Proof.
  intros Hff Hreq. split.
  - intros Hpath Hlow Hne.
    assert (Hends : Py.endswith (stem ++ ext) ".mp4" = false).
    { rewrite endswith_app_same_length
        by (rewrite <- (lower_length ext), Hlow; reflexivity).
      now apply String.eqb_neq. }
    unfold process_videos, check_ffmpeg. rewrite Hff. cbn. rewrite Hreq.
    destruct Hpath as [-> | ->]; rewrite Hends; cbn.
    + reflexivity.
    + now rewrite orb_true_r.
  - intros Ha Hin.
    pose proof (audio_accepted_any_case self stem ext Ha Hin) as Hok.
    split; [exact Hok|]. intros Ht Hb.
    unfold process_videos, check_ffmpeg. rewrite Hff, bind_ret.
    cbn [negb]. rewrite Hreq, Ht, Hb, Hok. cbn [negb orb].
    rewrite bind_emit. now eexists _, _.
Qed.

Lemma extension_checks_case_witness :
  process_videos sample_env
    (mkVideoProcessor (Some "clip.MP4") (Some "bottom.mp4") None (Some "out") false)
    sample_segments
  = ([], Raise (Exn ValueError "Input files must be mp4")).
Proof.
  refine (proj1 (extension_checks_case sample_env
                   (mkVideoProcessor (Some "clip.MP4") (Some "bottom.mp4") None
                      (Some "out") false)
                   sample_segments "clip.MP4" "bottom.mp4" "out" "clip" ".MP4"
                   eq_refl eq_refl) _ eq_refl _).
  - left. reflexivity.
  - discriminate.
Defined.

Example audio_upper_case_accepted :
  audio_refused
    (mkVideoProcessor (Some "top.mp4") (Some "bottom.mp4") (Some "song.WAV")
       (Some "out") false) = false.
Proof. reflexivity. Qed.

Example video_mixed_case_refused :
  Py.endswith "clip.Mp4" ".mp4" = false.
Proof. reflexivity. Qed.

(** C6, at the failing input. When ffmpeg is not found, [process_videos]
    shows the dialog of [check_ffmpeg] and returns normally: nothing is
    raised, nothing is started; and the worker thread, which sees no
    exception, goes on to report success. *)
Theorem process_videos_without_ffmpeg (env : Env) (self : VideoProcessor)
  (segments : list TimeSegment) :
  ffmpeg_found env = false ->
  process_videos env self segments
  = ([ShowError "FFmpeg Not Found" ffmpeg_not_found_message], Ok tt)
  /\ process_thread env self segments
     = ([ShowError "FFmpeg Not Found" ffmpeg_not_found_message;
         StatusLabel "Complete!";
         ShowInfo "Success" "Video processing complete!";
         ButtonNormal], Ok tt).
Proof.
  intros Hff.
  assert (H : process_videos env self segments
              = ([ShowError "FFmpeg Not Found" ffmpeg_not_found_message], Ok tt)).
  { unfold process_videos, check_ffmpeg. rewrite Hff. reflexivity. }
  split; [exact H|]. unfold process_thread. rewrite H. reflexivity.
Qed.

Lemma process_videos_without_ffmpeg_witness :
  result (process_videos (mkEnv false (probe sample_env) None 3 0 ""
                            (segment_run sample_env) true None)
            sample_processor sample_segments) = Ok tt.
Proof.
  exact (f_equal snd
           (proj1 (process_videos_without_ffmpeg
                     (mkEnv false (probe sample_env) None 3 0 ""
                        (segment_run sample_env) true None)
                     sample_processor sample_segments eq_refl))).
Defined.

(** ** One segment *)

Lemma ramp_loop (p_start step p_end : Q) :
  (for_range 10 (fun i =>
     sleep (1 # 10) ;; emit (ProgressPut (p_start + (inject_Z i * step))%Q)) ;;
   emit (ProgressPut p_end))%eff
  = (map ProgressPut
       (map (fun i => (p_start + (inject_Z i * step))%Q) [0; 1; 2; 3; 4; 5; 6; 7; 8; 9]
        ++ [p_end])%list, Ok tt).
Proof. reflexivity. Qed.

(** What one call of [process_segment] does: either everything succeeds,
    and the log is the status message, the child process and the ramp; or
    the call raises the wrapped error, after the status message and at most
    the child process, with nothing on the progress queue. *)
Lemma process_segment_cases env out temp ve ep seg index total :
  (exists s e err,
      convert_timestamp (start seg) = Ok s
      /\ convert_timestamp (end_ seg) = Ok e
      /\ s < e
      /\ segment_run env index
           (segment_command s (e - s) ve ep temp (segment_output_file out seg))
         = Ok (0, err)
      /\ process_segment env out temp ve ep seg index total
         = (StatusPut (segment_status index total)
            :: Run (segment_command s (e - s) ve ep temp (segment_output_file out seg))
            :: map ProgressPut (segment_ramp index total), Ok tt))
  \/ (exists l msg,
        process_segment env out temp ve ep seg index total
        = (StatusPut (segment_status index total) :: l,
           Raise (Exn RuntimeError
                    ("Error processing segment " ++ start seg ++ "-" ++ end_ seg
                     ++ ": " ++ msg)))
        /\ progress_values l = []
        /\ (l = [] \/ exists c, l = [Run c])).
Proof.
  unfold process_segment. rewrite bind_emit.
  destruct (convert_timestamp (start seg)) as [s|x] eqn:Hs.
  2:{ right. rewrite bind_lift_raise, try_except_pair. cbn.
      exists [], (exn_str x). auto. }
  rewrite bind_lift_ok.
  destruct (convert_timestamp (end_ seg)) as [e|x] eqn:He.
  2:{ right. rewrite bind_lift_raise, try_except_pair. cbn.
      exists [], (exn_str x). auto. }
  rewrite bind_lift_ok.
  destruct (e - s <=? 0) eqn:Hd.
  { right. rewrite try_except_pair. cbn. eexists [], _. auto. }
  rewrite bind_emit.
  destruct (segment_run env index _) as [[code err]|x] eqn:Hrun.
  2:{ right. rewrite bind_lift_raise, try_except_pair. cbn.
      eexists [_], (exn_str x). split; [reflexivity|]. split; [reflexivity|]. right. eauto. }
  rewrite bind_lift_ok. cbn [fst snd].
  destruct (code =? 0) eqn:Hc; cbn [negb].
  2:{ right. rewrite try_except_pair. cbn.
      eexists [_], _. split; [reflexivity|]. split; [reflexivity|]. right. eauto. }
  left. apply Z.eqb_eq in Hc. subst code.
  apply Z.leb_gt in Hd.
  exists s, e, err.
  split; [reflexivity|]. split; [reflexivity|]. split; [lia|].
  split; [exact Hrun|].
  rewrite ramp_loop. reflexivity.
Qed.

Lemma inject_Z_pos n : 0 < n -> (0 < inject_Z n)%Q.
Proof. intros H. change 0%Q with (inject_Z 0). now rewrite <- Zlt_Qlt. Qed.

Lemma share_bounds index total :
  1 <= index <= total ->
  (0 <= inject_Z (index - 1) / inject_Z total
   /\ inject_Z (index - 1) / inject_Z total <= inject_Z index / inject_Z total
   /\ inject_Z index / inject_Z total <= 1)%Q.
Proof.
  intros H. assert (HN : (0 < inject_Z total)%Q) by (apply inject_Z_pos; lia).
  repeat split.
  - apply Qle_shift_div_l; [exact HN|]. rewrite Qmult_0_l.
    change 0%Q with (inject_Z 0). rewrite <- Zle_Qle. lia.
  - unfold Qdiv. apply Qmult_le_compat_r.
    + rewrite <- Zle_Qle. lia.
    + apply Qinv_le_0_compat. now apply Qlt_le_weak.
  - apply Qle_shift_div_r; [exact HN|]. rewrite Qmult_1_l.
    rewrite <- Zle_Qle. lia.
Qed.

Lemma share_full total : 0 < total -> (inject_Z total / inject_Z total == 1)%Q.
Proof.
  intros H. apply Qmult_inv_r. intros E.
  pose proof (inject_Z_pos total H) as P. rewrite E in P. now apply Qlt_irrefl in P.
Qed.

(** C9. A segment that succeeds puts eleven values on the progress queue:
    with [lo = 30 + 70*(index-1)/total] and [hi = 30 + 70*index/total], the
    value of tick [k] (k = 0..10) is [lo + k*(hi-lo)/10], so the values are
    evenly stepped, all lie between [lo] and [hi], and the last one is [hi];
    for the last segment that is 100. *)
Theorem segment_progress_ramp env out temp ve ep seg index total :
  1 <= index <= total ->
  result (process_segment env out temp ve ep seg index total) = Ok tt ->
  let ps := progress_values (log (process_segment env out temp ve ep seg index total)) in
  let lo := (30 + 70 * inject_Z (index - 1) / inject_Z total)%Q in
  let hi := (30 + 70 * inject_Z index / inject_Z total)%Q in
  List.length ps = 11%nat
  /\ (forall k, (k <= 10)%nat ->
        (nth k ps 0 == lo + inject_Z (Z.of_nat k) * ((hi - lo) / 10))%Q)
  /\ (forall p, In p ps -> (lo <= p <= hi)%Q)
  /\ (last ps 0 == hi)%Q
  /\ (index = total -> (last ps 0 == 100)%Q).
Proof.
  intros Hi Hok ps lo hi.
  destruct (process_segment_cases env out temp ve ep seg index total)
    as [(s & e & err & _ & _ & _ & _ & E) | (l & msg & E & _)];
    [| rewrite E in Hok; discriminate].
  assert (Hps : ps = segment_ramp index total).
  { subst ps. rewrite E. cbn [log fst progress_values].
    generalize (segment_ramp index total). intros r.
    induction r as [|q r IH]; cbn; [reflexivity | now rewrite IH]. }
  destruct (share_bounds index total Hi) as (B0 & B1 & B2).
  assert (Hlo : (lo == progress_start index total)%Q).
  { subst lo. unfold progress_start, Qdiv. ring. }
  assert (Hhi : (hi == progress_end index total)%Q).
  { subst hi. unfold progress_end, Qdiv. ring. }
  assert (Hfull : index = total -> (inject_Z index / inject_Z total == 1)%Q).
  { intros ->. apply share_full. lia. }
  rewrite Hps. unfold segment_ramp, progress_start, progress_end in *.
  clear Hps E.
  set (a := (inject_Z (index - 1) / inject_Z total)%Q) in *.
  set (b := (inject_Z index / inject_Z total)%Q) in *.
  clearbody a b lo hi.
  split; [reflexivity|]. split; [|split; [|split]].
  - intros k Hk. rewrite Hlo, Hhi.
    do 11 (destruct k as [|k];
          [cbn; first [reflexivity | unfold inject_Z; ring | unfold inject_Z; field]|]).
    lia.
  - intros p Hp. rewrite Hlo, Hhi.
    cbn in Hp. unfold inject_Z in Hp.
    assert (E : ((30 + b * 70 - (30 + a * 70)) / 10 == 7 * (b - a))%Q) by field.
    repeat (destruct Hp as [<- | Hp]; [rewrite ?E; lra|]). contradiction.
  - cbn. symmetry. exact Hhi.
  - intros Heq. cbn. rewrite (Hfull Heq). lra.
Qed.

Lemma segment_progress_ramp_witness :
  (last (progress_values
           (log (process_segment sample_env "out" "out/temp_combined.mp4"
                   "libx264" "ultrafast" (mkTimeSegment "01:00" "01:30") 3 3)))
     0 == 100)%Q.
Proof.
  assert (H := segment_progress_ramp sample_env "out" "out/temp_combined.mp4"
                 "libx264" "ultrafast" (mkTimeSegment "01:00" "01:30") 3 3
                 ltac:(lia) eq_refl).
  exact (proj2 (proj2 (proj2 (proj2 H))) eq_refl).
Defined.

(** ** The combine ramp *)

Lemma progress_values_map (qs : list Q) : progress_values (map ProgressPut qs) = qs.
Proof. induction qs as [|q qs IH]; cbn; [reflexivity | now rewrite IH]. Qed.

Lemma runs_map_progress (qs : list Q) : runs (map ProgressPut qs) = [].
Proof. induction qs as [|q qs IH]; cbn; [reflexivity | exact IH]. Qed.

Lemma monitor_combine_spec (polls : nat) (p : Q) :
  exists qs,
    monitor_combine polls p = (map ProgressPut qs, Ok tt)
    /\ (List.length qs <= polls)%nat
    /\ StronglySorted Qle qs
    /\ forall x, In x qs ->
         (p < x /\ x <= p + inject_Z (Z.of_nat polls) * (1 # 10)
          /\ x <= 98 + (1 # 10))%Q.
Proof.
  revert p. induction polls as [|polls IH]; intros p.
  - exists []. cbn. repeat split; try constructor; try lia; contradiction.
  - cbn [monitor_combine].
    destruct (Qlt_le_dec p 98) as [Hlt | Hge].
    + destruct (IH (p + (1 # 10))%Q) as (qs & E & Hlen & Hs & Hb).
      exists ((p + (1 # 10))%Q :: qs).
      unfold sleep. rewrite bind_ret, bind_emit, E.
      assert (Hstep : (inject_Z (Z.of_nat (S polls))
                       == inject_Z (Z.of_nat polls) + 1)%Q).
      { rewrite Nat2Z.inj_succ. unfold Z.succ. now rewrite inject_Z_plus. }
      split; [reflexivity|]. split; [cbn; lia|]. split.
      * constructor; [exact Hs|]. apply Forall_forall. intros x Hx.
        destruct (Hb x Hx) as (H1 & _). lra.
      * intros x [<- | Hx].
        -- rewrite Hstep.
           assert (0 <= inject_Z (Z.of_nat polls))%Q
             by (change 0%Q with (inject_Z 0); rewrite <- Zle_Qle; lia).
           lra.
        -- destruct (Hb x Hx) as (H1 & H2 & H3). rewrite Hstep. lra.
    + exists []. cbn. repeat split; try constructor; try lia; contradiction.
Qed.

(** ** The ramp of one segment *)







Lemma status_values_map_progress (qs : list Q) :
  status_values (map ProgressPut qs) = [].
Proof. induction qs as [|q qs IH]; cbn; [reflexivity | exact IH]. Qed.

Lemma process_segment_invalid_duration env out temp ve ep seg index total s e :
  convert_timestamp (start seg) = Ok s ->
  convert_timestamp (end_ seg) = Ok e ->
  e <= s ->
  process_segment env out temp ve ep seg index total
  = ([StatusPut (segment_status index total)],
     Raise (Exn RuntimeError
              ("Error processing segment " ++ start seg ++ "-" ++ end_ seg
               ++ ": Invalid segment duration: " ++ start seg ++ "-" ++ end_ seg))).
Proof.
  intros Hs He Hle. unfold process_segment.
  rewrite bind_emit, Hs, bind_lift_ok, He, bind_lift_ok.
  replace (e - s <=? 0) with true by (symmetry; apply Z.leb_le; lia).
  rewrite try_except_pair. reflexivity.
Qed.


(** ** The segment loop *)

Section SegmentLoop.

Variables (env : Env) (self : VideoProcessor) (out : string).

Lemma segment_loop_cons seg rest i total :
  segment_loop env self out (seg :: rest) i total
  = bind (process_segment env out (temp_output_path out) (video_encoder self)
            (encoder_preset self) seg i total)
      (fun _ => segment_loop env self out rest (i + 1) total).
Proof. reflexivity. Qed.

Lemma segment_loop_app pre post i total :
  segment_loop env self out (pre ++ post) i total
  = bind (segment_loop env self out pre i total)
      (fun _ => segment_loop env self out post (i + Z.of_nat (List.length pre)) total).
Proof.
  revert i. induction pre as [|seg pre IH]; intros i.
  - cbn [app List.length Z.of_nat]. rewrite Z.add_0_r.
    unfold segment_loop at 2. cbn [for_segments]. now rewrite bind_ret.
  - cbn [app]. rewrite !segment_loop_cons, bind_assoc.
    destruct (process_segment _ _ _ _ _ _ _ _) as [l [[]|e]]; [|reflexivity].
    rewrite !bind_pair, IH.
    replace (i + 1 + Z.of_nat (List.length pre))
      with (i + Z.of_nat (List.length (seg :: pre)))
      by (cbn [List.length]; lia).
    reflexivity.
Qed.

Lemma segment_loop_ok segs i total :
  result (segment_loop env self out segs i total) = Ok tt ->
  List.length (runs (log (segment_loop env self out segs i total)))
  = List.length segs
  /\ status_values (log (segment_loop env self out segs i total))
     = map (fun k => segment_status (i + Z.of_nat k) total)
         (seq 0 (List.length segs)).
Proof.
  revert i. induction segs as [|seg rest IH]; intros i Hok; [now split|].
  rewrite segment_loop_cons in *.
  destruct (process_segment_cases env out (temp_output_path out)
              (video_encoder self) (encoder_preset self) seg i total)
    as [(s & e & err & _ & _ & _ & _ & E) | (l & msg & E & _)];
    rewrite E, bind_pair in *; [|discriminate].
  cbn [result snd log fst] in *. destruct (IH (i + 1) Hok) as [IHr IHs].
  rewrite runs_app, status_values_app.
  cbn [runs status_values].
  rewrite runs_map_progress, status_values_map_progress, IHs.
  cbn [List.length app]. rewrite IHr.
  split; [reflexivity|].
  cbn [app seq map]. rewrite Z.add_0_r. f_equal.
  rewrite <- seq_shift, map_map. apply map_ext. intros k. f_equal. lia.
Qed.


End SegmentLoop.

(** ** The [try] statement *)

Lemma cleanup_spec env temp :
  cleanup env temp
  = (if temp_exists env then
       Remove temp
       :: match remove_error env with
          | Some e => [Print ("Warning: Could not remove temporary file " ++ temp
                              ++ ": " ++ exn_str e)]
          | None => []
          end
     else [],
     Ok tt).
Proof.
  unfold cleanup. destruct (temp_exists env); [|reflexivity].
  rewrite bind_emit. destruct (remove_error env) as [e|]; reflexivity.
Qed.

Lemma combine_and_segment_spec env self top bottom out sw sh segments :
  let temp := temp_output_path out in
  let cmd := combine_command self top bottom sw sh (video_encoder self)
               (encoder_preset self) temp in
  let loop := segment_loop env self out segments 1
                (Z.of_nat (List.length segments)) in
  exists qs,
    (List.length qs <= combine_polls env)%nat
    /\ StronglySorted Qle qs
    /\ (forall x, In x qs ->
          (0 < x /\ x <= inject_Z (Z.of_nat (combine_polls env)) * (1 # 10)
           /\ x <= 98 + (1 # 10))%Q)
    /\ combine_and_segment env self top bottom out temp sw sh segments
       = match popen_error env with
         | Some e => ([StatusPut "Combining videos..."; Popen cmd], Raise e)
         | None =>
             if combine_returncode env =? 0 then
               (StatusPut "Combining videos..." :: Popen cmd
                :: (map ProgressPut qs ++ ProgressPut 30 :: log loop)%list,
                result loop)
             else
               (StatusPut "Combining videos..." :: Popen cmd :: map ProgressPut qs,
                Raise (Exn RuntimeError
                         ("FFmpeg Error:" ++ String LF "" ++ combine_stderr env)))
         end.
Proof.
  intros temp cmd loop.
  destruct (monitor_combine_spec (combine_polls env) 0) as (qs & E & Hlen & Hs & Hb).
  exists qs. split; [exact Hlen|]. split; [exact Hs|]. split.
  { intros x Hx. destruct (Hb x Hx) as (H1 & H2 & H3).
    rewrite Qplus_0_l in H2. auto. }
  unfold combine_and_segment. rewrite bind_emit.
  fold (video_encoder self) (encoder_preset self). fold temp. fold cmd.
  rewrite bind_emit.
  destruct (popen_error env) as [e|]; [reflexivity|].
  rewrite bind_ret, E, bind_pair.
  destruct (combine_returncode env =? 0); cbn [negb].
  - rewrite bind_emit. reflexivity.
  - cbn. now rewrite app_nil_r.
Qed.

Lemma try_statement_spec env self top bottom out temp sw sh segments :
  let body := combine_and_segment env self top bottom out temp sw sh segments in
  try_statement env self top bottom out temp sw sh segments
  = ((log body ++ log (cleanup env temp))%list,
     match result body with
     | Ok a => Ok a
     | Raise e =>
         Raise (Exn RuntimeError ("Video processing failed: " ++ exn_str e))
     end).
Proof.
  intros body. unfold try_statement. fold body.
  rewrite (eta body), try_except_pair.
  destruct (result body) as [[]|e]; rewrite try_finally_pair, cleanup_spec;
    cbn [log result fst snd raise]; [reflexivity | now rewrite app_nil_r].
Qed.

(** ** The whole run *)

(** The four ways [process_videos] can go: ffmpeg is missing; validation
    fails; a probe fails; or the [try] statement is entered. *)
Lemma process_videos_cases env self segments :
  (ffmpeg_found env = false
   /\ process_videos env self segments
      = ([ShowError "FFmpeg Not Found" ffmpeg_not_found_message], Ok tt))
  \/ (ffmpeg_found env = true
      /\ exists e, process_videos env self segments = ([], Raise e))
  \/ (ffmpeg_found env = true
      /\ exists e, process_videos env self segments
                   = ([StatusPut "Analyzing videos..."], Raise e))
  \/ (ffmpeg_found env = true
      /\ exists top bottom out st sb wt ht wb hb,
           required_fields self = Some (top, bottom, out)
           /\ Py.endswith top ".mp4" = true
           /\ Py.endswith bottom ".mp4" = true
           /\ audio_refused self = false
           /\ probe env top = Ok st
           /\ probe env bottom = Ok sb
           /\ first_stream st width "width" = Ok wt
           /\ first_stream st height "height" = Ok ht
           /\ first_stream sb width "width" = Ok wb
           /\ first_stream sb height "height" = Ok hb
           /\ let T := try_statement env self top bottom out (temp_output_path out)
                         (fst (plan_geometry wt ht wb hb))
                         (snd (plan_geometry wt ht wb hb)) segments in
              process_videos env self segments
              = (StatusPut "Analyzing videos..." :: log T, result T)).
Proof.
  unfold process_videos, check_ffmpeg.
  destruct (ffmpeg_found env) eqn:Hff; [|left; split; [reflexivity|]; cbn; reflexivity].
  right. rewrite bind_ret. cbn [negb].
  destruct (required_fields self) as [[[top bottom] out]|] eqn:Hreq;
    [|left; split; [reflexivity | eexists; reflexivity]].
  destruct (Py.endswith top ".mp4") eqn:Ht; cbn [negb orb];
    [|left; split; [reflexivity | eexists; reflexivity]].
  destruct (Py.endswith bottom ".mp4") eqn:Hb; cbn [negb orb];
    [|left; split; [reflexivity | eexists; reflexivity]].
  destruct (audio_refused self) eqn:Ha;
    [left; split; [reflexivity | eexists; reflexivity]|].
  right. rewrite bind_emit.
  destruct (probe env top) as [st|x] eqn:Hpt;
    [rewrite bind_lift_ok | left; split; [reflexivity | eexists; reflexivity]].
  destruct (probe env bottom) as [sb|x] eqn:Hpb;
    [rewrite bind_lift_ok | left; split; [reflexivity | eexists; reflexivity]].
  destruct (first_stream st width "width") as [wt|x] eqn:Hwt;
    [rewrite bind_lift_ok | left; split; [reflexivity | eexists; reflexivity]].
  destruct (first_stream st height "height") as [ht|x] eqn:Hht;
    [rewrite bind_lift_ok | left; split; [reflexivity | eexists; reflexivity]].
  destruct (first_stream sb width "width") as [wb|x] eqn:Hwb;
    [rewrite bind_lift_ok | left; split; [reflexivity | eexists; reflexivity]].
  destruct (first_stream sb height "height") as [hb|x] eqn:Hhb;
    [rewrite bind_lift_ok | left; split; [reflexivity | eexists; reflexivity]].
  right. split; [reflexivity|].
  exists top, bottom, out, st, sb, wt, ht, wb, hb.
  repeat (split; [assumption || reflexivity|]).
  reflexivity.
Qed.

Lemma process_videos_enters_try env self segments top bottom out st sb wt ht wb hb :
  ffmpeg_found env = true ->
  required_fields self = Some (top, bottom, out) ->
  Py.endswith top ".mp4" = true ->
  Py.endswith bottom ".mp4" = true ->
  audio_refused self = false ->
  probe env top = Ok st ->
  probe env bottom = Ok sb ->
  first_stream st width "width" = Ok wt ->
  first_stream st height "height" = Ok ht ->
  first_stream sb width "width" = Ok wb ->
  first_stream sb height "height" = Ok hb ->
  let T := try_statement env self top bottom out (temp_output_path out)
             (fst (plan_geometry wt ht wb hb))
             (snd (plan_geometry wt ht wb hb)) segments in
  process_videos env self segments
  = (StatusPut "Analyzing videos..." :: log T, result T).
Proof.
  intros Hff Hreq Ht Hb Ha Hpt Hpb Hwt Hht Hwb Hhb T.
  unfold process_videos, check_ffmpeg.
  rewrite Hff, bind_ret. cbn [negb]. rewrite Hreq, Ht, Hb, Ha. cbn [negb orb].
  rewrite bind_emit, Hpt, bind_lift_ok, Hpb, bind_lift_ok.
  rewrite Hwt, bind_lift_ok, Hht, bind_lift_ok, Hwb, bind_lift_ok, Hhb, bind_lift_ok.
  reflexivity.
Qed.

Lemma segment_loop_removals env self out segs i total :
  removals (log (segment_loop env self out segs i total)) = [].
Proof.
  revert i. induction segs as [|seg rest IH]; intros i; [reflexivity|].
  rewrite segment_loop_cons.
  destruct (process_segment_cases env out (temp_output_path out)
              (video_encoder self) (encoder_preset self) seg i total)
    as [(s & e & err & _ & _ & _ & _ & E) | (l & msg & E & _ & Hl)];
    rewrite E, bind_pair; cbn [log fst].
  - rewrite removals_app, IH. cbn [removals].
    generalize (segment_ramp i total). intros r.
    induction r as [|q r IHr]; [reflexivity | exact IHr].
  - destruct Hl as [-> | (c & ->)]; reflexivity.
Qed.

Lemma removals_map_progress (qs : list Q) : removals (map ProgressPut qs) = [].
Proof. induction qs as [|q qs IH]; cbn; [reflexivity | exact IH]. Qed.

Lemma combine_and_segment_removals env self top bottom out sw sh segments :
  removals (log (combine_and_segment env self top bottom out (temp_output_path out)
                   sw sh segments)) = [].
Proof.
  destruct (combine_and_segment_spec env self top bottom out sw sh segments)
    as (qs & _ & _ & _ & E).
  rewrite E. destruct (popen_error env); [reflexivity|].
  destruct (combine_returncode env =? 0); cbn [log fst removals].
  - rewrite removals_app, removals_map_progress. cbn [removals app].
    apply segment_loop_removals.
  - apply removals_map_progress.
Qed.

Lemma cleanup_log_no_run env temp :
  runs (log (cleanup env temp)) = [] /\ status_values (log (cleanup env temp)) = []
  /\ progress_values (log (cleanup env temp)) = [].
Proof.
  rewrite cleanup_spec. cbn [log fst].
  destruct (temp_exists env); [|now repeat split].
  destruct (remove_error env); now repeat split.
Qed.

Ltac project_log :=
  repeat first
    [ progress cbn [runs status_values progress_values removals app]
    | rewrite runs_app | rewrite status_values_app
    | rewrite progress_values_app | rewrite removals_app
    | rewrite runs_map_progress | rewrite status_values_map_progress
    | rewrite progress_values_map | rewrite removals_map_progress
    | rewrite app_nil_r ].

(** C7. In a run that gets as far as the segment loop and whose earlier
    segments all succeed, a segment whose end is not after its start makes
    [process_videos] raise the run error that wraps the segment error naming
    the range and the invalid duration; [subprocess.run] has been called
    once per earlier segment and not for this one; the status queue shows
    this segment as the last one started; and after its status message the
    log holds the cleanup only, so no later segment is attempted. *)
Theorem invalid_duration_stops_run (env : Env) (self : VideoProcessor)
  (out : string) (pre post : list TimeSegment) (seg : TimeSegment) (s e : Z) :
  reaches_segment_loop env self out ->
  let segments := (pre ++ seg :: post)%list in
  let total := Z.of_nat (List.length segments) in
  result (segment_loop env self out pre 1 total) = Ok tt ->
  convert_timestamp (start seg) = Ok s ->
  convert_timestamp (end_ seg) = Ok e ->
  e <= s ->
  let run := process_videos env self segments in
  result run = Raise (invalid_duration_error seg)
  /\ List.length (runs (log run)) = List.length pre
  /\ status_values (log run)
     = ("Analyzing videos..." :: "Combining videos..."
        :: map (fun k => segment_status (Z.of_nat k) total)
             (seq 1 (S (List.length pre))))%list
  /\ exists before,
       log run
       = (before
          ++ StatusPut (segment_status (Z.of_nat (S (List.length pre))) total)
          :: log (cleanup env (temp_output_path out)))%list.
Proof.
  intros (Hff & (top & bottom & st & sb & wt & ht & wb & hb & Hreq & Ht & Hb
                 & Ha & Hpt & Hpb & Hwt & Hht & Hwb & Hhb) & Hpo & Hrc)
    segments total Hpre Hs He Hle run.
  subst run.
  rewrite (process_videos_enters_try env self segments top bottom out st sb
             wt ht wb hb) by assumption.
  cbv zeta. rewrite try_statement_spec. cbv zeta.
  destruct (combine_and_segment_spec env self top bottom out
              (fst (plan_geometry wt ht wb hb)) (snd (plan_geometry wt ht wb hb))
              segments) as (qs & _ & _ & _ & E).
  destruct (segment_loop_ok env self out pre 1 total Hpre) as [Hruns Hstat].
  assert (Hloop : segment_loop env self out segments 1 total
                  = ((log (segment_loop env self out pre 1 total)
                      ++ [StatusPut (segment_status
                                       (Z.of_nat (S (List.length pre))) total)])%list,
                     Raise (Exn RuntimeError
                              ("Error processing segment " ++ start seg ++ "-"
                               ++ end_ seg ++ ": Invalid segment duration: "
                               ++ start seg ++ "-" ++ end_ seg)))).
  { unfold segments. rewrite segment_loop_app, segment_loop_cons.
    rewrite (process_segment_invalid_duration _ _ _ _ _ seg _ _ s e Hs He Hle).
    rewrite (eta (segment_loop env self out pre 1 _)).
    fold segments. fold total. rewrite Hpre, !bind_pair. cbn [log result fst snd].
    replace (1 + Z.of_nat (List.length pre))
      with (Z.of_nat (S (List.length pre))) by lia.
    reflexivity. }
  rewrite E, Hpo, Hrc. cbn [Z.eqb]. fold total. rewrite Hloop.
  cbn [log result fst snd].
  destruct (cleanup_log_no_run env (temp_output_path out)) as (Cr & Cs & _).
  split; [reflexivity|]. split; [|split].
  - project_log. rewrite Cr. project_log. exact Hruns.
  - project_log. rewrite Cs, Hstat. project_log. do 2 f_equal.
    replace (S (List.length pre)) with (List.length pre + 1)%nat by lia.
    rewrite seq_app, map_app. cbn [seq map]. f_equal.
    + rewrite <- seq_shift, map_map. apply map_ext. intros k. f_equal. lia.
    + do 2 f_equal. lia.
  - exists (StatusPut "Analyzing videos..." :: StatusPut "Combining videos..."
            :: Popen (combine_command self top bottom
                        (fst (plan_geometry wt ht wb hb))
                        (snd (plan_geometry wt ht wb hb))
                        (video_encoder self) (encoder_preset self)
                        (temp_output_path out))
            :: (map ProgressPut qs
                ++ ProgressPut 30 :: log (segment_loop env self out pre 1 total))%list).
    cbn [app]. do 3 f_equal.
    repeat (rewrite <- app_assoc; cbn [app]). reflexivity.
Qed.

Lemma invalid_duration_stops_run_witness :
  result (process_videos sample_env sample_processor
            [mkTimeSegment "00:00" "00:30"; backwards_segment;
             mkTimeSegment "01:00" "01:30"])
  = Raise (invalid_duration_error backwards_segment).
Proof.
  refine (proj1 (invalid_duration_stops_run sample_env sample_processor "out"
                   [mkTimeSegment "00:00" "00:30"]
                   [mkTimeSegment "01:00" "01:30"] backwards_segment 30 10
                   _ eq_refl eq_refl eq_refl _)).
  - split; [reflexivity|]. split; [|split; reflexivity].
    exists "top.mp4", "bottom.mp4", [mkStream (Some 1920) (Some 1080)],
      [mkStream (Some 1920) (Some 1080)], 1920, 1080, 1920, 1080.
    repeat split.
  - lia.
Defined.

Lemma process_videos_remove_error_body env err self top bottom out sw sh segments :
  combine_and_segment (with_remove_error env err) self top bottom out
    (temp_output_path out) sw sh segments
  = combine_and_segment env self top bottom out (temp_output_path out) sw sh segments.
Proof. reflexivity. Qed.

(** C8. In every run that reached the combining stage, whatever its
    outcome: the log is the body of the run, which removes nothing, followed
    by the cleanup; the cleanup calls [os.remove] on the temporary file
    exactly when the file exists, and an exception of that call leaves a
    printed warning and nothing else; and whatever [os.remove] does, the
    body's log and the outcome of the run are the same. *)
Theorem cleanup_always_attempted (env : Env) (self : VideoProcessor)
  (segments : list TimeSegment) :
  In (StatusPut "Combining videos...") (log (process_videos env self segments)) ->
  exists top bottom out body,
    required_fields self = Some (top, bottom, out)
    /\ removals body = []
    /\ log (cleanup env (temp_output_path out))
       = (if temp_exists env then
            Remove (temp_output_path out)
            :: match remove_error env with
               | Some e =>
                   [Print ("Warning: Could not remove temporary file "
                           ++ temp_output_path out ++ ": " ++ exn_str e)]
               | None => []
               end
          else [])
    /\ log (process_videos env self segments)
       = (body ++ log (cleanup env (temp_output_path out)))%list
    /\ forall err,
         log (process_videos (with_remove_error env err) self segments)
         = (body ++ log (cleanup (with_remove_error env err) (temp_output_path out)))%list
         /\ result (process_videos (with_remove_error env err) self segments)
            = result (process_videos env self segments).
Proof.
  intros Hin.
  destruct (process_videos_cases env self segments)
    as [(_ & E) | [(_ & x & E) | [(_ & x & E) | (Hff & top & bottom & out & st & sb
         & wt & ht & wb & hb & Hreq & Ht & Hb & Ha & Hpt & Hpb & Hwt & Hht & Hwb
         & Hhb & E)]]];
    try (rewrite E in Hin; cbn in Hin; intuition discriminate).
  cbv zeta in E.
  exists top, bottom, out.
  exists (StatusPut "Analyzing videos..."
          :: log (combine_and_segment env self top bottom out (temp_output_path out)
                    (fst (plan_geometry wt ht wb hb))
                    (snd (plan_geometry wt ht wb hb)) segments)).
  split; [exact Hreq|]. split.
  { cbn [removals]. apply combine_and_segment_removals. }
  split; [now rewrite cleanup_spec|].
  split; [rewrite E, try_statement_spec; reflexivity|].
  intros err.
  rewrite (process_videos_enters_try (with_remove_error env err) self segments
             top bottom out st sb wt ht wb hb) by assumption.
  cbv zeta. rewrite E, !try_statement_spec. cbv zeta.
  rewrite process_videos_remove_error_body. split; reflexivity.
Qed.

Lemma cleanup_always_attempted_witness :
  exists top bottom out body,
    required_fields sample_processor = Some (top, bottom, out)
    /\ removals body = []
    /\ log (cleanup sample_env (temp_output_path out))
       = [Remove (temp_output_path out)]
    /\ log (process_videos sample_env sample_processor sample_segments)
       = (body ++ log (cleanup sample_env (temp_output_path out)))%list
    /\ forall err,
         log (process_videos (with_remove_error sample_env err) sample_processor
                sample_segments)
         = (body ++ log (cleanup (with_remove_error sample_env err)
                           (temp_output_path out)))%list
         /\ result (process_videos (with_remove_error sample_env err)
                      sample_processor sample_segments)
            = result (process_videos sample_env sample_processor sample_segments).
Proof.
  apply (cleanup_always_attempted sample_env sample_processor sample_segments).
  right. left. reflexivity.
Defined.





Example slow_run_drop :
  let ps := progress_values
              (log (process_videos slow_env sample_processor sample_segments)) in
  (nth 300 ps 0 == 301 # 10)%Q /\ (nth 301 ps 0 == 30)%Q.
Proof. split; vm_compute; reflexivity. Qed.



(** * Further properties *)

(** ** More on timestamps *)

Lemma digit_facts c d :
  Py.digit_val c = Some d ->
  Py.isspace c = false /\ Py.isdigit c = true
  /\ Ascii.eqb c ":" = false /\ Ascii.eqb c "-" = false
  /\ Ascii.eqb c LF = false /\ Ascii.eqb c BACKSLASH = false
  /\ Ascii.eqb c "/" = false.
Proof.
  destruct c as [[] [] [] [] [] [] [] []]; vm_compute;
    (discriminate || (intros _; repeat split)).
Qed.

Lemma digit_cases d : 0 <= d <= 9 ->
  d = 0 \/ d = 1 \/ d = 2 \/ d = 3 \/ d = 4 \/ d = 5 \/ d = 6 \/ d = 7
  \/ d = 8 \/ d = 9.
Proof. lia. Qed.

Lemma int_two_digits c1 c0 a b :
  Py.digit_val c1 = Some a -> Py.digit_val c0 = Some b ->
  Py.int (String c1 (String c0 "")) = Some (10 * a + b).
Proof.
  intros H1 H0.
  apply digit_val_char in H1 as [B1 ->], H0 as [B0 ->].
  apply digit_cases in B1, B0.
  repeat (destruct B1 as [-> | B1]); try subst a;
    repeat (destruct B0 as [-> | B0]); try subst b; reflexivity.
Qed.

Lemma split_mmss m1 m0 s1 s0 a b c d :
  Py.digit_val m1 = Some a -> Py.digit_val m0 = Some b ->
  Py.digit_val s1 = Some c -> Py.digit_val s0 = Some d ->
  Py.split ":" (mmss_text m1 m0 s1 s0)
  = [String m1 (String m0 ""); String s1 (String s0 "")].
Proof.
  intros H1 H2 H3 H4.
  apply digit_facts in H1 as (_ & _ & E1 & _), H2 as (_ & _ & E2 & _),
    H3 as (_ & _ & E3 & _), H4 as (_ & _ & E4 & _).
  unfold mmss_text. cbn [Py.split]. rewrite E1, E2, E3, E4. reflexivity.
Qed.

Lemma convert_mmss_text m1 m0 s1 s0 a b c d :
  Py.digit_val m1 = Some a -> Py.digit_val m0 = Some b ->
  Py.digit_val s1 = Some c -> Py.digit_val s0 = Some d ->
  convert_timestamp (mmss_text m1 m0 s1 s0)
  = if 10 * c + d <? 60 then Ok ((10 * a + b) * 60 + (10 * c + d))
    else Raise (Exn ValueError
                  ("Invalid timestamp format: " ++ mmss_text m1 m0 s1 s0
                   ++ ". Use MM:SS format with numbers only.")).
Proof.
  intros H1 H2 H3 H4. unfold convert_timestamp.
  rewrite (split_mmss m1 m0 s1 s0 a b c d) by assumption.
  unfold Exc.int.
  rewrite (int_two_digits m1 m0 a b), (int_two_digits s1 s0 c d) by assumption.
  cbn [obind]. rewrite Z.geb_leb.
  destruct (10 * c + d <? 60) eqn:E.
  - apply Z.ltb_lt in E.
    replace (60 <=? 10 * c + d) with false by (symmetry; apply Z.leb_gt; lia).
    reflexivity.
  - apply Z.ltb_ge in E.
    replace (60 <=? 10 * c + d) with true by (symmetry; apply Z.leb_le; lia).
    reflexivity.
Qed.

Lemma valid_mmss_text m1 m0 s1 s0 a b c d :
  Py.digit_val m1 = Some a -> Py.digit_val m0 = Some b ->
  Py.digit_val s1 = Some c -> Py.digit_val s0 = Some d ->
  valid_mmss (mmss_text m1 m0 s1 s0) = (10 * c + d <? 60).
Proof.
  intros H1 H2 H3 H4. unfold mmss_text. cbn [valid_mmss].
  now rewrite H1, H2, H3, H4.
Qed.

Lemma valid_mmss_shape t :
  valid_mmss t = true ->
  exists m1 m0 s1 s0 a b c d,
    t = mmss_text m1 m0 s1 s0
    /\ Py.digit_val m1 = Some a /\ Py.digit_val m0 = Some b
    /\ Py.digit_val s1 = Some c /\ Py.digit_val s0 = Some d
    /\ 10 * c + d < 60.
Proof.
  destruct t as [|m1 [|m0 [|x [|s1 [|s0 [|y r]]]]]]; try discriminate.
  cbn [valid_mmss].
  destruct (Py.digit_val m1) as [a|] eqn:Ha; [|discriminate].
  destruct (Py.digit_val m0) as [b|] eqn:Hb; [|discriminate].
  destruct (Py.digit_val s1) as [c|] eqn:Hc; [|discriminate].
  destruct (Py.digit_val s0) as [d|] eqn:Hd; [|discriminate].
  intros H. apply andb_prop in H as [Hx Hlt].
  apply Ascii.eqb_eq in Hx. apply Z.ltb_lt in Hlt. subst x.
  exists m1, m0, s1, s0, a, b, c, d. auto 10.
Qed.

Lemma isdigit_val c : Py.isdigit c = true -> exists d, Py.digit_val c = Some d.
Proof. unfold Py.isdigit. destruct (Py.digit_val c); [eauto | discriminate]. Qed.

Lemma pattern_match_shape line a b :
  pattern_match line = Some (a, b) ->
  exists m1 m0 s1 s0 n1 n0 t1 t0 tail,
    line = a ++ "-" ++ b ++ tail
    /\ a = mmss_text m1 m0 s1 s0 /\ b = mmss_text n1 n0 t1 t0
    /\ Py.isdigit m1 = true /\ Py.isdigit m0 = true
    /\ Py.isdigit s1 = true /\ Py.isdigit s0 = true
    /\ Py.isdigit n1 = true /\ Py.isdigit n0 = true
    /\ Py.isdigit t1 = true /\ Py.isdigit t0 = true.
Proof.
  destruct line as [|m1 [|m0 [|c1 [|s1 [|s0 [|h [|n1 [|n0 [|c2 [|t1 [|t0 tail]]]]]]]]]]];
    try discriminate.
  cbn [pattern_match].
  destruct (Py.isdigit m1) eqn:D1; [|discriminate].
  destruct (Py.isdigit m0) eqn:D2; [|discriminate].
  destruct (Ascii.eqb c1 ":") eqn:C1; [|discriminate].
  destruct (Py.isdigit s1) eqn:D3; [|discriminate].
  destruct (Py.isdigit s0) eqn:D4; [|discriminate].
  destruct (Ascii.eqb h "-") eqn:Hh; [|discriminate].
  destruct (Py.isdigit n1) eqn:D5; [|discriminate].
  destruct (Py.isdigit n0) eqn:D6; [|discriminate].
  destruct (Ascii.eqb c2 ":") eqn:C2; [|discriminate].
  destruct (Py.isdigit t1) eqn:D7; [|discriminate].
  destruct (Py.isdigit t0) eqn:D8; [|discriminate].
  cbn. intros [= <- <-].
  apply Ascii.eqb_eq in C1, Hh, C2. subst c1 h c2.
  exists m1, m0, s1, s0, n1, n0, t1, t0, tail.
  repeat (split; [first [reflexivity | assumption]|]). assumption.
Qed.

(** A group of the pattern converts exactly when it is a valid MM:SS text. *)
Lemma convert_group m1 m0 s1 s0 :
  Py.isdigit m1 = true -> Py.isdigit m0 = true ->
  Py.isdigit s1 = true -> Py.isdigit s0 = true ->
  (valid_mmss (mmss_text m1 m0 s1 s0) = true
   /\ exists n, convert_timestamp (mmss_text m1 m0 s1 s0) = Ok n)
  \/ (valid_mmss (mmss_text m1 m0 s1 s0) = false
      /\ convert_timestamp (mmss_text m1 m0 s1 s0)
         = Raise (Exn ValueError
                    ("Invalid timestamp format: " ++ mmss_text m1 m0 s1 s0
                     ++ ". Use MM:SS format with numbers only."))).
Proof.
  intros D1 D2 D3 D4.
  apply isdigit_val in D1 as [a Ha], D2 as [b Hb], D3 as [c Hc], D4 as [d Hd].
  rewrite (valid_mmss_text m1 m0 s1 s0 a b c d),
    (convert_mmss_text m1 m0 s1 s0 a b c d) by assumption.
  destruct (10 * c + d <? 60); [left | right]; eauto.
Qed.

(** X1. Whatever goes wrong, [convert_timestamp] raises one of two errors:
    with the message ending in [Use MM:SS format.] when the text does not
    split into exactly two fields, with the one ending in [with numbers
    only.] otherwise. The message [Seconds must be less than 60 ...], raised
    inside the [try] block, is caught there and never reaches the caller. *)
Theorem convert_timestamp_error_message (timestamp : string) (e : exn) :
  convert_timestamp timestamp = Raise e ->
  (e = Exn ValueError
         ("Invalid timestamp format: " ++ timestamp ++ ". Use MM:SS format.")
   /\ List.length (Py.split ":" timestamp) <> 2%nat)
  \/ (e = Exn ValueError
            ("Invalid timestamp format: " ++ timestamp
             ++ ". Use MM:SS format with numbers only.")
      /\ List.length (Py.split ":" timestamp) = 2%nat).
Proof.
  unfold convert_timestamp, Exc.int.
  destruct (Py.split ":" timestamp) as [|mf [|sf [|x l]]]; cbn [List.length];
    try (intros [= <-]; left; split; [reflexivity | lia]).
  destruct (Py.int mf) as [minutes|]; [|intros [= <-]; right; split; reflexivity].
  destruct (Py.int sf) as [seconds|]; [|intros [= <-]; right; split; reflexivity].
  cbn. destruct (seconds >=? 60); [|discriminate].
  intros [= <-]. right. split; reflexivity.
Qed.

Lemma convert_timestamp_error_message_witness :
  (Exn ValueError "Invalid timestamp format: 00:75. Use MM:SS format with numbers only."
   = Exn ValueError ("Invalid timestamp format: " ++ "00:75" ++ ". Use MM:SS format.")
   /\ List.length (Py.split ":" "00:75") <> 2%nat)
  \/ (Exn ValueError "Invalid timestamp format: 00:75. Use MM:SS format with numbers only."
      = Exn ValueError ("Invalid timestamp format: " ++ "00:75"
                        ++ ". Use MM:SS format with numbers only.")
      /\ List.length (Py.split ":" "00:75") = 2%nat).
Proof. exact (convert_timestamp_error_message "00:75" _ eq_refl). Defined.

(** ** More on parsing *)

Lemma parse_lines_app l1 l2 acc :
  parse_lines (l1 ++ l2) acc
  = obind (parse_lines l1 acc) (fun acc' => parse_lines l2 acc').
Proof.
  revert acc. induction l1 as [|line l1 IH]; intros acc; [reflexivity|].
  cbn [app parse_lines].
  destruct (negb (Py.truthy (Py.strip line))); [apply IH|].
  destruct (pattern_match (Py.strip line)) as [[a b]|]; [|reflexivity].
  destruct (convert_timestamp a); [|reflexivity].
  destruct (convert_timestamp b); [|reflexivity].
  cbn [obind]. apply IH.
Qed.

Lemma convert_ok_valid line a b n :
  pattern_match line = Some (a, b) ->
  (convert_timestamp a = Ok n -> valid_mmss a = true)
  /\ (convert_timestamp b = Ok n -> valid_mmss b = true).
Proof.
  intros Hm.
  destruct (pattern_match_shape line a b Hm)
    as (m1 & m0 & s1 & s0 & n1 & n0 & t1 & t0 & tail & _ & -> & ->
        & D1 & D2 & D3 & D4 & D5 & D6 & D7 & D8).
  split; intros Hc.
  - destruct (convert_group m1 m0 s1 s0 D1 D2 D3 D4) as [[Hv _] | [_ Hr]];
      [exact Hv | congruence].
  - destruct (convert_group n1 n0 t1 t0 D5 D6 D7 D8) as [[Hv _] | [_ Hr]];
      [exact Hv | congruence].
Qed.

Lemma parse_lines_ok lines :
  forall acc segs,
    parse_lines lines acc = Ok segs ->
    exists new,
      segs = (acc ++ new)%list
      /\ map Some new = map range_of_line (filter nonblank lines)
      /\ forallb valid_segment new = true.
Proof.
  induction lines as [|line rest IH]; intros acc segs H.
  - cbn in H. injection H as <-. exists []. now rewrite app_nil_r.
  - cbn [parse_lines] in H. cbn [filter]. unfold nonblank at 1.
    destruct (Py.truthy (Py.strip line)) eqn:Hnb; cbn [negb] in H.
    + destruct (pattern_match (Py.strip line)) as [[a b]|] eqn:Hm; [|discriminate].
      destruct (convert_timestamp a) as [na|] eqn:Ha; [|discriminate].
      destruct (convert_timestamp b) as [nb|] eqn:Hb; [|discriminate].
      cbn [obind] in H.
      destruct (IH _ _ H) as (new & -> & Hmap & Hval).
      exists (mkTimeSegment a b :: new). split; [now rewrite <- app_assoc|].
      split.
      * cbn [map]. unfold range_of_line at 1. rewrite Hm. now f_equal.
      * cbn [forallb]. rewrite Hval, andb_true_r. unfold valid_segment. cbn.
        destruct (convert_ok_valid _ a b na Hm) as [Va _].
        destruct (convert_ok_valid _ a b nb Hm) as [_ Vb].
        now rewrite Va, Vb.
    + apply IH. exact H.
Qed.

Lemma valid_mmss_converts t :
  valid_mmss t = true -> exists n, convert_timestamp t = Ok n /\ 0 <= n < 6000.
Proof.
  intros Hv.
  destruct (valid_mmss_shape t Hv)
    as (m1 & m0 & s1 & s0 & a & b & c & d & -> & Ha & Hb & Hc & Hd & Hlt).
  rewrite (convert_mmss_text m1 m0 s1 s0 a b c d) by assumption.
  replace (10 * c + d <? 60) with true by (symmetry; apply Z.ltb_lt; lia).
  eexists. split; [reflexivity|].
  apply digit_val_char in Ha as [Ba _], Hb as [Bb _], Hc as [Bc _], Hd as [Bd _].
  lia.
Qed.

(** X2. What [parse_timestamps] returns is never empty, and both ends of
    every segment in it are valid MM:SS texts, which [convert_timestamp]
    turns into integers from 0 to 5999. *)
Theorem parse_timestamps_sound (text : string) (segments : list TimeSegment) :
  parse_timestamps text = Ok segments ->
  segments <> []
  /\ forall segment, In segment segments ->
       valid_segment segment = true
       /\ exists s e,
            convert_timestamp (start segment) = Ok s
            /\ convert_timestamp (end_ segment) = Ok e
            /\ 0 <= s < 6000 /\ 0 <= e < 6000.
Proof.
  unfold parse_timestamps. intros H.
  destruct (parse_lines (Py.split LF text) []) as [segs|] eqn:Hp; [|discriminate].
  cbn [obind] in H. destruct segs as [|s0 segs]; [discriminate|].
  injection H as <-. split; [discriminate|].
  destruct (parse_lines_ok _ _ _ Hp) as (new & Hnew & _ & Hval).
  cbn [app] in Hnew. subst new. intros segment Hin.
  rewrite forallb_forall in Hval. pose proof (Hval segment Hin) as Hv.
  split; [exact Hv|]. unfold valid_segment in Hv.
  apply andb_prop in Hv as [Vs Ve].
  destruct (valid_mmss_converts _ Vs) as (s & Hs & Bs).
  destruct (valid_mmss_converts _ Ve) as (e & He & Be).
  exists s, e. auto.
Qed.

Lemma parse_timestamps_sound_witness :
  [mkTimeSegment "00:10" "00:40"; mkTimeSegment "01:00" "01:30"] <> [].
Proof. exact (proj1 (parse_timestamps_sound sample_text _ eq_refl)). Defined.

(** X3. When [parse_timestamps] succeeds, its result holds exactly one
    segment per line that is not blank, in the order of the lines: the range
    each of these lines begins with. *)
Theorem parse_timestamps_order (text : string) (segments : list TimeSegment) :
  parse_timestamps text = Ok segments ->
  map Some segments
  = map range_of_line (filter nonblank (Py.split LF text)).
Proof.
  unfold parse_timestamps. intros H.
  destruct (parse_lines (Py.split LF text) []) as [segs|] eqn:Hp; [|discriminate].
  cbn [obind] in H. destruct segs as [|s0 segs]; [discriminate|].
  injection H as <-.
  destruct (parse_lines_ok _ _ _ Hp) as (new & Hnew & Hmap & _).
  cbn [app] in Hnew. now subst new.
Qed.

Lemma parse_timestamps_order_witness :
  map Some [mkTimeSegment "00:10" "00:40"; mkTimeSegment "01:00" "01:30"]
  = map range_of_line (filter nonblank (Py.split LF sample_text)).
Proof. exact (parse_timestamps_order sample_text _ eq_refl). Defined.

(** X4. The first line that is not blank and does not begin with a range
    decides the outcome: if the lines before it are accepted, the parse
    raises the format error naming that line (trimmed), whatever the lines
    after it hold. *)
Theorem parse_timestamps_first_bad_line (text : string)
  (good rest : list string) (bad : string) (accepted : list TimeSegment) :
  Py.split LF text = (good ++ bad :: rest)%list ->
  parse_lines good [] = Ok accepted ->
  nonblank bad = true ->
  range_of_line bad = None ->
  parse_timestamps text = Raise (line_format_error (Py.strip bad)).
Proof.
  intros Hsplit Hgood Hnb Hbad. unfold parse_timestamps.
  rewrite Hsplit, parse_lines_app, Hgood. cbn [obind parse_lines].
  unfold nonblank in Hnb. rewrite Hnb. cbn [negb].
  unfold range_of_line in Hbad.
  destruct (pattern_match (Py.strip bad)) as [[a b]|]; [discriminate|].
  reflexivity.
Qed.

Lemma parse_timestamps_first_bad_line_witness :
  parse_timestamps sample_bad_text
  = Raise (line_format_error (Py.strip "bad-line")).
Proof.
  exact (parse_timestamps_first_bad_line sample_bad_text ["00:10-00:40"]
           ["01:00-01:30"; ""] "bad-line" [mkTimeSegment "00:10" "00:40"]
           eq_refl eq_refl eq_refl eq_refl).
Defined.

Lemma range_line_accepted a b rest acc :
  valid_mmss a = true -> valid_mmss b = true ->
  parse_lines ((a ++ "-" ++ b) :: rest) acc
  = parse_lines rest (acc ++ [mkTimeSegment a b])%list.
Proof.
  intros Va Vb.
  destruct (valid_mmss_converts a Va) as (na & Hna & _).
  destruct (valid_mmss_converts b Vb) as (nb & Hnb & _).
  destruct (valid_mmss_shape a Va)
    as (m1 & m0 & s1 & s0 & a1 & a0 & a3 & a2 & Ea & H1 & H2 & H3 & H4 & _).
  destruct (valid_mmss_shape b Vb)
    as (n1 & n0 & t1 & t0 & b1 & b0 & b3 & b2 & Eb & H5 & H6 & H7 & H8 & _).
  assert (Hstrip : Py.strip (a ++ "-" ++ b) = a ++ "-" ++ b).
  { subst a b. unfold mmss_text, Py.strip. cbn [append Py.rstrip].
    destruct (digit_facts _ _ H8) as (S8 & _). rewrite S8. cbn [Py.lstrip].
    destruct (digit_facts _ _ H1) as (S1 & _). now rewrite S1. }
  assert (Hmatch : pattern_match (a ++ "-" ++ b) = Some (a, b)).
  { subst a b. unfold mmss_text. cbn [append pattern_match].
    destruct (digit_facts _ _ H1) as (_ & D1 & _).
    destruct (digit_facts _ _ H2) as (_ & D2 & _).
    destruct (digit_facts _ _ H3) as (_ & D3 & _).
    destruct (digit_facts _ _ H4) as (_ & D4 & _).
    destruct (digit_facts _ _ H5) as (_ & D5 & _).
    destruct (digit_facts _ _ H6) as (_ & D6 & _).
    destruct (digit_facts _ _ H7) as (_ & D7 & _).
    destruct (digit_facts _ _ H8) as (_ & D8 & _).
    rewrite D1, D2, D3, D4, D5, D6, D7, D8. reflexivity. }
  cbn [parse_lines]. rewrite Hstrip, Hmatch.
  replace (Py.truthy (a ++ "-" ++ b)) with true
    by (subst a; reflexivity).
  cbn [negb]. rewrite Hna, Hnb. reflexivity.
Qed.

Lemma split_range_line a b :
  valid_mmss a = true -> valid_mmss b = true ->
  Py.split LF (a ++ "-" ++ b ++ String LF "") = [a ++ "-" ++ b; ""].
Proof.
  intros Va Vb.
  destruct (valid_mmss_shape a Va)
    as (m1 & m0 & s1 & s0 & a1 & a0 & a3 & a2 & -> & H1 & H2 & H3 & H4 & _).
  destruct (valid_mmss_shape b Vb)
    as (n1 & n0 & t1 & t0 & b1 & b0 & b3 & b2 & -> & H5 & H6 & H7 & H8 & _).
  destruct (digit_facts _ _ H1) as (_ & _ & _ & _ & L1 & _).
  destruct (digit_facts _ _ H2) as (_ & _ & _ & _ & L2 & _).
  destruct (digit_facts _ _ H3) as (_ & _ & _ & _ & L3 & _).
  destruct (digit_facts _ _ H4) as (_ & _ & _ & _ & L4 & _).
  destruct (digit_facts _ _ H5) as (_ & _ & _ & _ & L5 & _).
  destruct (digit_facts _ _ H6) as (_ & _ & _ & _ & L6 & _).
  destruct (digit_facts _ _ H7) as (_ & _ & _ & _ & L7 & _).
  destruct (digit_facts _ _ H8) as (_ & _ & _ & _ & L8 & _).
  unfold mmss_text. cbn [append Py.split].
  rewrite L1, L2, L3, L4, L5, L6, L7, L8. reflexivity.
Qed.

(** X5. [parse_timestamps] does not compare the two ends of a range: any
    two valid MM:SS texts joined by a hyphen are accepted as a segment,
    also when the second is not later than the first. *)
Theorem parse_timestamps_any_order (a b : string) :
  valid_mmss a = true -> valid_mmss b = true ->
  parse_timestamps (a ++ "-" ++ b ++ String LF "")
  = Ok [mkTimeSegment a b].
Proof.
  intros Va Vb. unfold parse_timestamps.
  rewrite split_range_line, range_line_accepted by assumption.
  reflexivity.
Qed.

Lemma parse_timestamps_any_order_witness :
  parse_timestamps ("00:40" ++ "-" ++ "00:10" ++ String LF "")
  = Ok [mkTimeSegment "00:40" "00:10"].
Proof. exact (parse_timestamps_any_order "00:40" "00:10" eq_refl eq_refl). Defined.



(** ** File names *)

Lemma replace_app a b s t :
  Py.replace a b (s ++ t) = Py.replace a b s ++ Py.replace a b t.
Proof. induction s as [|c s IH]; cbn; [reflexivity | now rewrite IH]. Qed.

Lemma string_app_inv_head (p s t : string) : p ++ s = p ++ t -> s = t.
Proof. induction p as [|c p IH]; cbn; [auto | intros [= H]; auto]. Qed.

Lemma str_app_assoc (a b c : string) : (a ++ b) ++ c = a ++ b ++ c.
Proof. induction a as [|x a IH]; cbn; [reflexivity | now rewrite IH]. Qed.

Lemma startswith_segment x : Py.startswith ("segment_" ++ x) "/" = false.
Proof. reflexivity. Qed.

Lemma segment_file_name m1 m0 s1 s0 n1 n0 t1 t0 a b c d e f g h :
  Py.digit_val m1 = Some a -> Py.digit_val m0 = Some b ->
  Py.digit_val s1 = Some c -> Py.digit_val s0 = Some d ->
  Py.digit_val n1 = Some e -> Py.digit_val n0 = Some f ->
  Py.digit_val t1 = Some g -> Py.digit_val t0 = Some h ->
  forall out_dir,
    segment_output_file out_dir
      (mkTimeSegment (mmss_text m1 m0 s1 s0) (mmss_text n1 n0 t1 t0))
    = Py.replace BACKSLASH "/"
        (if negb (Py.truthy out_dir) || Py.endswith out_dir "/"
         then out_dir else out_dir ++ "/")
      ++ "segment_" ++ dotted m1 m0 s1 s0 ++ "-" ++ dotted n1 n0 t1 t0 ++ ".mp4".
Proof.
  intros H1 H2 H3 H4 H5 H6 H7 H8 out_dir.
  destruct (digit_facts _ _ H1) as (_ & _ & C1 & _ & _ & B1 & _).
  destruct (digit_facts _ _ H2) as (_ & _ & C2 & _ & _ & B2 & _).
  destruct (digit_facts _ _ H3) as (_ & _ & C3 & _ & _ & B3 & _).
  destruct (digit_facts _ _ H4) as (_ & _ & C4 & _ & _ & B4 & _).
  destruct (digit_facts _ _ H5) as (_ & _ & C5 & _ & _ & B5 & _).
  destruct (digit_facts _ _ H6) as (_ & _ & C6 & _ & _ & B6 & _).
  destruct (digit_facts _ _ H7) as (_ & _ & C7 & _ & _ & B7 & _).
  destruct (digit_facts _ _ H8) as (_ & _ & C8 & _ & _ & B8 & _).
  unfold segment_output_file, Py.path_join, mmss_text, dotted.
  cbn [start end_ Py.replace]. rewrite C1, C2, C3, C4, C5, C6, C7, C8.
  cbn [Ascii.eqb Bool.eqb]. rewrite startswith_segment.
  assert (Hname : forall p,
            Py.replace BACKSLASH "/"
              (p ++ "segment_" ++ String m1 (String m0 (String "." (String s1
                 (String s0 EmptyString)))) ++ "-"
               ++ String n1 (String n0 (String "." (String t1
                    (String t0 EmptyString)))) ++ ".mp4")
            = Py.replace BACKSLASH "/" p
              ++ "segment_" ++ String m1 (String m0 (String "." (String s1
                   (String s0 EmptyString)))) ++ "-"
              ++ String n1 (String n0 (String "." (String t1
                   (String t0 EmptyString)))) ++ ".mp4").
  { intros p. rewrite replace_app. f_equal.
    cbn [append Py.replace]. rewrite B1, B2, B3, B4, B5, B6, B7, B8.
    reflexivity. }
  destruct (negb (Py.truthy out_dir) || Py.endswith out_dir "/").
  - apply Hname.
  - rewrite <- (Hname (out_dir ++ "/")). now rewrite <- str_app_assoc.
Qed.

(** X7. Within one output directory, two segments with valid ends are
    written to the same file only if they are the same segment. *)
Theorem segment_output_files_distinct (out_dir : string)
  (segment1 segment2 : TimeSegment) :
  valid_segment segment1 = true -> valid_segment segment2 = true ->
  segment_output_file out_dir segment1 = segment_output_file out_dir segment2 ->
  segment1 = segment2.
Proof.
  destruct segment1 as [a1 b1], segment2 as [a2 b2].
  unfold valid_segment. cbn [start end_]. intros V1 V2.
  apply andb_prop in V1 as [Va1 Vb1], V2 as [Va2 Vb2].
  destruct (valid_mmss_shape _ Va1) as (? & ? & ? & ? & ? & ? & ? & ? & -> & ? & ? & ? & ? & _).
  destruct (valid_mmss_shape _ Vb1) as (? & ? & ? & ? & ? & ? & ? & ? & -> & ? & ? & ? & ? & _).
  destruct (valid_mmss_shape _ Va2) as (? & ? & ? & ? & ? & ? & ? & ? & -> & ? & ? & ? & ? & _).
  destruct (valid_mmss_shape _ Vb2) as (? & ? & ? & ? & ? & ? & ? & ? & -> & ? & ? & ? & ? & _).
  erewrite !segment_file_name by eassumption.
  intros Heq. apply string_app_inv_head in Heq. cbn in Heq.
  injection Heq as -> -> -> -> -> -> -> ->. reflexivity.
Qed.

Lemma segment_output_files_distinct_witness :
  mkTimeSegment "00:10" "00:40" = mkTimeSegment "00:10" "00:40".
Proof.
  exact (segment_output_files_distinct "out" (mkTimeSegment "00:10" "00:40")
           (mkTimeSegment "00:10" "00:40") eq_refl eq_refl eq_refl).
Defined.

(** ** More on one segment *)

(** [process_segment], case by case. *)
Lemma process_segment_eq env out temp ve ep seg index total :
  process_segment env out temp ve ep seg index total
  = match convert_timestamp (start seg), convert_timestamp (end_ seg) with
    | Raise x, _ =>
        ([StatusPut (segment_status index total)],
         Raise (segment_error seg (exn_str x)))
    | Ok _, Raise x =>
        ([StatusPut (segment_status index total)],
         Raise (segment_error seg (exn_str x)))
    | Ok s, Ok e =>
        if e - s <=? 0 then
          ([StatusPut (segment_status index total)],
           Raise (segment_error seg
                    ("Invalid segment duration: " ++ start seg ++ "-" ++ end_ seg)))
        else
          let command :=
            segment_command s (e - s) ve ep temp (segment_output_file out seg) in
          match segment_run env index command with
          | Raise x =>
              ([StatusPut (segment_status index total); Run command],
               Raise (segment_error seg (exn_str x)))
          | Ok (code, err) =>
              if code =? 0 then
                (StatusPut (segment_status index total) :: Run command
                 :: map ProgressPut (segment_ramp index total), Ok tt)
              else
                ([StatusPut (segment_status index total); Run command],
                 Raise (segment_error seg
                          ("FFmpeg Error during segmentation:" ++ String LF ""
                           ++ err)))
          end
    end.
Proof.
  unfold process_segment. rewrite bind_emit.
  destruct (convert_timestamp (start seg)) as [s|x];
    [rewrite bind_lift_ok | rewrite bind_lift_raise, try_except_pair; reflexivity].
  destruct (convert_timestamp (end_ seg)) as [e|x];
    [rewrite bind_lift_ok | rewrite bind_lift_raise, try_except_pair; reflexivity].
  destruct (e - s <=? 0); [rewrite try_except_pair; reflexivity|].
  rewrite bind_emit. cbv zeta.
  destruct (segment_run env index _) as [[code err]|x];
    [rewrite bind_lift_ok | rewrite bind_lift_raise, try_except_pair; reflexivity].
  cbn [fst snd]. destruct (code =? 0); cbn [negb].
  - rewrite ramp_loop. reflexivity.
  - rewrite try_except_pair. reflexivity.
Qed.

(** X9. When [process_segment] raises, the error is the [RuntimeError]
    [Error processing segment START-END: ...], nothing has been put on the
    progress queue, the status queue has received the message of this
    segment only, and at most one child process has been run. *)
Theorem process_segment_failure env out temp ve ep seg index total e :
  result (process_segment env out temp ve ep seg index total) = Raise e ->
  (exists msg, e = segment_error seg msg)
  /\ progress_values (log (process_segment env out temp ve ep seg index total)) = []
  /\ status_values (log (process_segment env out temp ve ep seg index total))
     = [segment_status index total]
  /\ (List.length (runs (log (process_segment env out temp ve ep seg index total)))
      <= 1)%nat.
Proof.
  rewrite process_segment_eq.
  destruct (convert_timestamp (start seg)) as [s|x].
  2:{ cbn. intros [= <-]. repeat split; eauto. }
  destruct (convert_timestamp (end_ seg)) as [e'|x].
  2:{ cbn. intros [= <-]. repeat split; eauto. }
  destruct (e' - s <=? 0).
  { cbn. intros [= <-]. repeat split; eauto. }
  cbv zeta. destruct (segment_run env index _) as [[code err]|x].
  2:{ cbn. intros [= <-]. repeat split; eauto. }
  destruct (code =? 0); [discriminate|].
  cbn. intros [= <-]. repeat split; eauto.
Qed.

Lemma process_segment_failure_witness :
  progress_values
    (log (process_segment sample_env "out" "out/temp_combined.mp4" "libx264"
            "ultrafast" backwards_segment 2 3)) = [].
Proof.
  exact (proj1 (proj2
           (process_segment_failure sample_env "out" "out/temp_combined.mp4"
              "libx264" "ultrafast" backwards_segment 2 3 _ eq_refl))).
Defined.

(** X10. When the two ends convert, the end is after the start and the
    extraction exits with a code other than 0, [process_segment] raises the
    segment error carrying ffmpeg's error output, after the status message
    and the one child process. *)
Theorem process_segment_nonzero_exit env out temp ve ep seg index total s e code err :
  convert_timestamp (start seg) = Ok s ->
  convert_timestamp (end_ seg) = Ok e ->
  s < e ->
  segment_run env index
    (segment_command s (e - s) ve ep temp (segment_output_file out seg))
  = Ok (code, err) ->
  code <> 0 ->
  process_segment env out temp ve ep seg index total
  = ([StatusPut (segment_status index total);
      Run (segment_command s (e - s) ve ep temp (segment_output_file out seg))],
     Raise (segment_error seg
              ("FFmpeg Error during segmentation:" ++ String LF "" ++ err))).
Proof.
  intros Hs He Hlt Hrun Hcode. rewrite process_segment_eq, Hs, He.
  replace (e - s <=? 0) with false by (symmetry; apply Z.leb_gt; lia).
  cbv zeta. rewrite Hrun.
  replace (code =? 0) with false by (symmetry; now apply Z.eqb_neq).
  reflexivity.
Qed.

Lemma process_segment_nonzero_exit_witness :
  process_segment failing_segment_env "out" "out/temp_combined.mp4" "libx264"
    "ultrafast" (mkTimeSegment "00:30" "01:00") 2 3
  = ([StatusPut (segment_status 2 3);
      Run (segment_command 30 (60 - 30) "libx264" "ultrafast"
             "out/temp_combined.mp4"
             (segment_output_file "out" (mkTimeSegment "00:30" "01:00")))],
     Raise (segment_error (mkTimeSegment "00:30" "01:00")
              ("FFmpeg Error during segmentation:" ++ String LF ""
               ++ "No space left"))).
Proof.
  apply (process_segment_nonzero_exit failing_segment_env "out"
           "out/temp_combined.mp4" "libx264" "ultrafast"
           (mkTimeSegment "00:30" "01:00") 2 3 30 60 1 "No space left");
    try reflexivity; lia.
Defined.

Lemma spawned_app l1 l2 : spawned (l1 ++ l2) = (spawned l1 ++ spawned l2)%list.
Proof.
  induction l1 as [|ev l1 IH]; [reflexivity|].
  destruct ev; cbn; rewrite IH; reflexivity.
Qed.

Lemma spawned_map_progress (qs : list Q) : spawned (map ProgressPut qs) = [].
Proof. induction qs as [|q qs IH]; cbn; [reflexivity | exact IH]. Qed.

Ltac project_all :=
  repeat first
    [ progress cbn [runs status_values progress_values removals spawned app]
    | rewrite runs_app | rewrite status_values_app
    | rewrite progress_values_app | rewrite removals_app | rewrite spawned_app
    | rewrite runs_map_progress | rewrite status_values_map_progress
    | rewrite progress_values_map | rewrite removals_map_progress
    | rewrite spawned_map_progress
    | rewrite app_nil_r ].

Section SegmentTrace.

Variables (env : Env) (self : VideoProcessor) (out : string).

Lemma loop_trace_stopped seg rest i total msg :
  loop_trace self out (seg :: rest) i total
    ([StatusPut (segment_status i total)], Raise (segment_error seg msg))
    1 0.
Proof.
  unfold loop_trace. cbn [List.length firstn map seq Nat.pred nth_error log result
                            fst snd status_values runs spawned].
  rewrite Z.add_0_r. repeat split; try lia; try constructor; try discriminate.
  intros e [= <-]. eauto.
Qed.

Lemma loop_trace_ran seg rest i total msg :
  positive_duration seg ->
  loop_trace self out (seg :: rest) i total
    ([StatusPut (segment_status i total); Run (extraction_command self out seg)],
     Raise (segment_error seg msg))
    1 1.
Proof.
  intros Hpos. unfold loop_trace.
  cbn [List.length firstn map seq Nat.pred nth_error log result
       fst snd status_values runs spawned].
  rewrite Z.add_0_r. repeat split; try lia; try discriminate.
  - constructor; [exact Hpos | constructor].
  - intros e [= <-]. eauto.
Qed.

Lemma segment_loop_trace segs :
  forall i total,
  exists k r,
    loop_trace self out segs i total (segment_loop env self out segs i total) k r.
Proof.
  induction segs as [|seg rest IH]; intros i total.
  - exists 0%nat, 0%nat. unfold loop_trace. cbn.
    repeat split; try lia; try constructor. discriminate.
  - rewrite segment_loop_cons, process_segment_eq.
    destruct (convert_timestamp (start seg)) as [s|x] eqn:Hs;
      [|exists 1%nat, 0%nat; rewrite bind_pair; apply loop_trace_stopped].
    destruct (convert_timestamp (end_ seg)) as [e|x] eqn:He;
      [|exists 1%nat, 0%nat; rewrite bind_pair; apply loop_trace_stopped].
    destruct (e - s <=? 0) eqn:Hd;
      [exists 1%nat, 0%nat; rewrite bind_pair; apply loop_trace_stopped|].
    apply Z.leb_gt in Hd. cbv zeta.
    assert (Hcmd : segment_command s (e - s) (video_encoder self) (encoder_preset self)
                     (temp_output_path out) (segment_output_file out seg)
                   = extraction_command self out seg).
    { unfold extraction_command. now rewrite Hs, He. }
    assert (Hpos : positive_duration seg) by (exists s, e; repeat split; auto; lia).
    rewrite Hcmd.
    destruct (segment_run env i (extraction_command self out seg))
      as [[code err]|x] eqn:Hrun;
      [|exists 1%nat, 1%nat; rewrite bind_pair; now apply loop_trace_ran].
    destruct (code =? 0) eqn:Hc;
      [|exists 1%nat, 1%nat; rewrite bind_pair; now apply loop_trace_ran].
    rewrite bind_pair.
    destruct (IH (i + 1) total) as (k & r & H1 & H2 & H3 & H4 & H5 & H6 & H7 & H8).
    exists (S k), (S r). unfold loop_trace. cbn [log result fst snd].
    project_all. cbn [List.length firstn map].
    rewrite H3, H5, H4. split; [lia|]. split; [lia|]. split.
    { cbn [seq map]. rewrite Z.add_0_r. f_equal.
      rewrite <- seq_shift, map_map. apply map_ext. intros j. f_equal. lia. }
    split; [reflexivity|]. split; [reflexivity|]. split.
    { constructor; assumption. }
    split.
    { intros Hok. destruct (H7 Hok). lia. }
    intros e' He'. destruct (H8 e' He') as (seg' & msg' & Hn & Hk & ->).
    exists seg', msg'. split; [|split; [lia | reflexivity]].
    destruct k as [|k]; [lia | exact Hn].
Qed.

End SegmentTrace.

(** ** More on the whole run *)

Lemma cleanup_log_spawned env temp : spawned (log (cleanup env temp)) = [].
Proof.
  rewrite cleanup_spec. cbn [log fst].
  destruct (temp_exists env); [|reflexivity].
  destruct (remove_error env); reflexivity.
Qed.

Lemma cleanup_log_removals env temp :
  removals (log (cleanup env temp)) = if temp_exists env then [temp] else [].
Proof.
  rewrite cleanup_spec. cbn [log fst].
  destruct (temp_exists env); [|reflexivity].
  destruct (remove_error env); reflexivity.
Qed.











(** X15. Once the combining stage has been announced, whatever the run
    raises is the [RuntimeError] [Video processing failed: ...] of the
    [except] clause. *)
Theorem errors_after_combining_are_wrapped env self segments e :
  In (StatusPut "Combining videos...") (log (process_videos env self segments)) ->
  result (process_videos env self segments) = Raise e ->
  exists msg, e = run_error msg.
Proof.
  intros Hin Hr.
  destruct (process_videos_cases env self segments)
    as [(_ & E) | [(_ & x & E) | [(_ & x & E) | (Hff & top & bottom & out & st & sb
         & wt & ht & wb & hb & Hreq & Ht & Hb & Ha & Hpt & Hpb & Hwt & Hht & Hwb
         & Hhb & E)]]];
    try (rewrite E in Hin; cbn in Hin; intuition discriminate).
  cbv zeta in E. rewrite E, try_statement_spec in Hr. cbv zeta in Hr.
  cbn [result snd] in Hr.
  destruct (result (combine_and_segment _ _ _ _ _ _ _ _ _)) as [[]|x];
    [discriminate|].
  injection Hr as <-. eexists. reflexivity.
Qed.

Lemma errors_after_combining_are_wrapped_witness :
  exists msg,
    run_error ("FFmpeg Error:" ++ String LF "" ++ "Invalid data found")
    = run_error msg.
Proof.
  apply (errors_after_combining_are_wrapped failing_combine_env sample_processor
           sample_segments).
  - right. left. reflexivity.
  - reflexivity.
Defined.

Lemma firstn_seq_le (k n a : nat) : (k <= n)%nat -> firstn k (seq a n) = seq a k.
Proof.
  revert n a. induction k as [|k IH]; intros n a Hk; [reflexivity|].
  destruct n as [|n]; [lia|]. cbn. f_equal. apply IH. lia.
Qed.

Lemma status_prefix (n k : nat) :
  (k <= n)%nat ->
  ("Analyzing videos..." :: "Combining videos..."
   :: map (fun j => segment_status (1 + Z.of_nat j) (Z.of_nat n)) (seq 0 k))%list
  = firstn (2 + k) (all_statuses n).
Proof.
  intros Hk. unfold all_statuses. cbn [firstn Nat.add]. do 2 f_equal.
  rewrite firstn_map, firstn_seq_le by exact Hk.
  rewrite <- seq_shift, map_map. apply map_ext. intros j. f_equal. lia.
Qed.

Section Run.

Variables (env : Env) (self : VideoProcessor).



(** X17. In every run the status messages are an initial part of the
    sequence analysing, combining, segment 1 of N, ..., segment N of N. *)
Theorem status_messages_in_order segments :
  exists k,
    status_values (log (process_videos env self segments))
    = firstn k (all_statuses (List.length segments)).
Proof.
  destruct (process_videos_cases env self segments)
    as [(_ & E) | [(_ & x & E) | [(_ & x & E) | (Hff & top & bottom & out & st & sb
         & wt & ht & wb & hb & Hreq & Ht & Hb & Ha & Hpt & Hpb & Hwt & Hht & Hwb
         & Hhb & E)]]].
  - exists 0%nat. now rewrite E.
  - exists 0%nat. now rewrite E.
  - exists 1%nat. now rewrite E.
  - cbv zeta in E. rewrite E, try_statement_spec. cbv zeta.
    destruct (combine_and_segment_spec env self top bottom out
                (fst (plan_geometry wt ht wb hb)) (snd (plan_geometry wt ht wb hb))
                segments) as (qs & _ & _ & _ & Eb).
    cbv zeta in Eb. rewrite Eb. clear Eb E.
    destruct (cleanup_log_no_run env (temp_output_path out)) as (_ & Cs & _).
    destruct (popen_error env).
    { exists 2%nat. cbn [log fst]. project_all. now rewrite Cs. }
    destruct (combine_returncode env =? 0).
    + destruct (segment_loop_trace env self out segments 1
                  (Z.of_nat (List.length segments)))
        as (k & r & Hk & _ & Hst & _).
      exists (2 + k)%nat. cbn [log fst]. project_all. rewrite Cs, Hst. project_all.
      apply status_prefix. lia.
    + exists 2%nat. cbn [log fst]. project_all. now rewrite Cs.
Qed.



End Run.



(** ** More on file names *)

Lemma temp_output_path_eq out_dir :
  temp_output_path out_dir = output_prefix out_dir ++ "temp_combined.mp4".
Proof.
  unfold temp_output_path, output_prefix, Py.path_join.
  change (Py.startswith "temp_combined.mp4" "/") with false. cbv iota.
  destruct (negb (Py.truthy out_dir) || Py.endswith out_dir "/").
  - now rewrite replace_app.
  - rewrite <- str_app_assoc, replace_app. reflexivity.
Qed.

Lemma segment_output_file_eq out_dir segment :
  segment_output_file out_dir segment
  = output_prefix out_dir
    ++ "segment_"
    ++ Py.replace BACKSLASH "/"
         (Py.replace ":" "." (start segment) ++ "-"
          ++ Py.replace ":" "." (end_ segment) ++ ".mp4").
Proof.
  unfold segment_output_file, output_prefix, Py.path_join.
  rewrite startswith_segment.
  destruct (negb (Py.truthy out_dir) || Py.endswith out_dir "/").
  - now rewrite replace_app.
  - rewrite <- str_app_assoc, replace_app. reflexivity.
Qed.

(** The temporary file is the output file of no segment. *)
Lemma temp_file_is_no_output (out_dir : string) (segment : TimeSegment) :
  segment_output_file out_dir segment <> temp_output_path out_dir.
Proof.
  rewrite temp_output_path_eq, segment_output_file_eq. intros H.
  apply string_app_inv_head in H. discriminate.
Qed.



(** ** More on the whole run, continued *)

(** X20. A run removes at most one file, the temporary combined video
    of the output directory, and that path is the output file of no
    segment. *)
Theorem only_temp_file_removed env self segments path :
  In path (removals (log (process_videos env self segments))) ->
  exists top bottom out,
    required_fields self = Some (top, bottom, out)
    /\ path = temp_output_path out
    /\ removals (log (process_videos env self segments)) = [path]
    /\ forall segment, path <> segment_output_file out segment.
Proof.
  intros Hin.
  destruct (process_videos_cases env self segments)
    as [(_ & E) | [(_ & x & E) | [(_ & x & E) | (Hff & top & bottom & out & st & sb
         & wt & ht & wb & hb & Hreq & Ht & Hb & Ha & Hpt & Hpb & Hwt & Hht & Hwb
         & Hhb & E)]]];
    try (rewrite E in Hin; cbn in Hin; contradiction).
  cbv zeta in E. rewrite E, try_statement_spec in Hin |- *. cbv zeta in Hin |- *.
  cbn [log fst removals] in Hin |- *.
  rewrite removals_app, combine_and_segment_removals, cleanup_log_removals in Hin |- *.
  cbn [app] in Hin |- *.
  destruct (temp_exists env); [|contradiction].
  destruct Hin as [<- | []].
  exists top, bottom, out. repeat split; auto.
  intros segment H. symmetry in H. now apply temp_file_is_no_output in H.
Qed.

Lemma only_temp_file_removed_witness :
  exists top bottom out,
    required_fields sample_processor = Some (top, bottom, out)
    /\ "out/temp_combined.mp4" = temp_output_path out
    /\ removals (log (process_videos sample_env sample_processor sample_segments))
       = ["out/temp_combined.mp4"]
    /\ forall segment, "out/temp_combined.mp4" <> segment_output_file out segment.
Proof.
  apply (only_temp_file_removed sample_env sample_processor sample_segments).
  left. reflexivity.
Defined.


(** ** Command lines *)

Lemma no_backslash_app a b :
  no_backslash (a ++ b) = no_backslash a && no_backslash b.
Proof.
  induction a as [|c a IH]; cbn; [reflexivity|].
  now rewrite IH, andb_assoc.
Qed.

Lemma no_backslash_replace s : no_backslash (Py.replace BACKSLASH "/" s) = true.
Proof.
  induction s as [|c s IH]; cbn; [reflexivity|].
  rewrite IH, andb_true_r. destruct (Ascii.eqb c BACKSLASH) eqn:E; [reflexivity|].
  now rewrite E.
Qed.

Lemma no_backslash_uint d : no_backslash (NilEmpty.string_of_uint d) = true.
Proof. induction d; cbn; auto. Qed.

Lemma no_backslash_str_of_int n : no_backslash (Py.str_of_int n) = true.
Proof.
  unfold Py.str_of_int, NilZero.string_of_int, NilZero.string_of_uint.
  destruct (Z.to_int n) as [d|d]; destruct d; cbn; auto using no_backslash_uint.
Qed.

Lemma no_backslash_temp out : no_backslash (temp_output_path out) = true.
Proof. apply no_backslash_replace. Qed.

Lemma no_backslash_encoder self :
  no_backslash (video_encoder self) = true
  /\ no_backslash (encoder_preset self) = true.
Proof. unfold video_encoder, encoder_preset. destruct (has_nvidia self); split; reflexivity. Qed.

Lemma combine_command_no_backslash self top bottom sw sh out :
  forallb no_backslash
    (combine_command self top bottom sw sh (video_encoder self)
       (encoder_preset self) (temp_output_path out)) = true.
Proof.
  destruct (no_backslash_encoder self) as [Hv Hp].
  unfold combine_command. cbv zeta.
  rewrite !forallb_app. cbn [forallb].
  rewrite !no_backslash_replace, Hv, Hp, no_backslash_temp.
  rewrite !no_backslash_app, !no_backslash_str_of_int.
  destruct (audio_file self) as [audio|]; cbn;
    [destruct (Py.truthy audio); cbn; rewrite ?no_backslash_replace|];
    reflexivity.
Qed.

Lemma segment_command_no_backslash self out s d seg :
  forallb no_backslash
    (segment_command s d (video_encoder self) (encoder_preset self)
       (temp_output_path out) (segment_output_file out seg)) = true.
Proof.
  destruct (no_backslash_encoder self) as [Hv Hp].
  unfold segment_command. cbn [forallb].
  rewrite !no_backslash_str_of_int, Hv, Hp, no_backslash_temp.
  unfold segment_output_file. rewrite no_backslash_replace. reflexivity.
Qed.

Lemma in_firstn {A} (x : A) n l : In x (firstn n l) -> In x l.
Proof.
  revert l. induction n as [|n IH]; intros [|a l]; cbn; try contradiction.
  intros [-> | H]; [now left | right; now apply IH].
Qed.

(** The child processes of a run: the combine process and the extractions
    of segments of positive duration. *)
Lemma spawned_commands env self segments command :
  In command (spawned (log (process_videos env self segments))) ->
  exists top bottom out sw sh,
    required_fields self = Some (top, bottom, out)
    /\ (command = combine_command self top bottom sw sh (video_encoder self)
                    (encoder_preset self) (temp_output_path out)
        \/ exists seg, In seg segments /\ positive_duration seg
                       /\ command = extraction_command self out seg).
Proof.
  intros Hin.
  destruct (process_videos_cases env self segments)
    as [(_ & E) | [(_ & x & E) | [(_ & x & E) | (Hff & top & bottom & out & st & sb
         & wt & ht & wb & hb & Hreq & Ht & Hb & Ha & Hpt & Hpb & Hwt & Hht & Hwb
         & Hhb & E)]]];
    try (rewrite E in Hin; cbn in Hin; contradiction).
  cbv zeta in E. rewrite E, try_statement_spec in Hin. cbv zeta in Hin.
  destruct (combine_and_segment_spec env self top bottom out
              (fst (plan_geometry wt ht wb hb)) (snd (plan_geometry wt ht wb hb))
              segments) as (qs & _ & _ & _ & Eb).
  cbv zeta in Eb. rewrite Eb in Hin. clear Eb E.
  destruct (segment_loop_trace env self out segments 1
              (Z.of_nat (List.length segments)))
    as (k & r & _ & _ & _ & Hruns & Hsp & Hpos & _).
  exists top, bottom, out, (fst (plan_geometry wt ht wb hb)),
    (snd (plan_geometry wt ht wb hb)).
  split; [exact Hreq|].
  destruct (popen_error env); [| destruct (combine_returncode env =? 0)];
    cbn [log fst] in Hin; revert Hin; project_all;
    rewrite ?cleanup_log_spawned, ?Hsp, ?Hruns; project_all;
    (intros [<- | Hin]; [now left|]); try contradiction.
  right. apply in_map_iff in Hin as (seg & <- & Hseg).
  exists seg. split; [now apply in_firstn in Hseg|]. split; [|reflexivity].
  rewrite Forall_forall in Hpos. now apply Hpos.
Qed.

(** X21. No argument of any child process of a run holds a backslash:
    every path is handed to ffmpeg with forward slashes. *)
Theorem no_backslash_in_commands env self segments command argument :
  In command (spawned (log (process_videos env self segments))) ->
  In argument command ->
  no_backslash argument = true.
Proof.
  intros Hc Ha.
  destruct (spawned_commands env self segments command Hc)
    as (top & bottom & out & sw & sh & _ & [-> | (seg & _ & (s & e & Hs & He & _) & ->)]).
  - pose proof (combine_command_no_backslash self top bottom sw sh out) as H.
    rewrite forallb_forall in H. now apply H.
  - unfold extraction_command in Ha. rewrite Hs, He in Ha.
    pose proof (segment_command_no_backslash self out s (e - s) seg) as H.
    rewrite forallb_forall in H. now apply H.
Qed.

Lemma no_backslash_in_commands_witness : no_backslash "out/temp_combined.mp4" = true.
Proof.
  apply (no_backslash_in_commands sample_env sample_processor sample_segments
           (combine_command sample_processor "top.mp4" "bottom.mp4" 607 540
              "libx264" "ultrafast" "out/temp_combined.mp4")).
  - left. reflexivity.
  - do 20 right. left. reflexivity.
Defined.





(** X24. For a segment that [parse_timestamps] returned, the conversion
    of its ends cannot fail in [process_segment]: when the call raises,
    either it is the invalid duration error and no child process was run, or
    the child process was run and the failure is its own. *)
Theorem parsed_segment_failure text segments env out temp ve ep seg index total e :
  parse_timestamps text = Ok segments ->
  In seg segments ->
  result (process_segment env out temp ve ep seg index total) = Raise e ->
  (e = segment_error seg
         ("Invalid segment duration: " ++ start seg ++ "-" ++ end_ seg)
   /\ runs (log (process_segment env out temp ve ep seg index total)) = [])
  \/ (exists command,
        runs (log (process_segment env out temp ve ep seg index total))
        = [command]).
Proof.
  unfold parse_timestamps. intros Hp Hin.
  destruct (parse_lines (Py.split LF text) []) as [segs|] eqn:Hl; [|discriminate].
  cbn [obind] in Hp. destruct segs as [|s0 segs]; [discriminate|].
  injection Hp as <-.
  destruct (parse_lines_ok _ _ _ Hl) as (new & Hnew & _ & Hval).
  cbn [app] in Hnew. subst new.
  rewrite forallb_forall in Hval. pose proof (Hval seg Hin) as Hv.
  unfold valid_segment in Hv. apply andb_prop in Hv as [Vs Ve].
  destruct (valid_mmss_converts _ Vs) as (s & Hs & _).
  destruct (valid_mmss_converts _ Ve) as (e' & He & _).
  rewrite process_segment_eq, Hs, He.
  destruct (e' - s <=? 0).
  { cbn. intros [= <-]. left. split; reflexivity. }
  cbv zeta. destruct (segment_run env index _) as [[code err]|x].
  2:{ cbn. intros _. right. eauto. }
  destruct (code =? 0); [discriminate|].
  cbn. intros _. right. eauto.
Qed.

Lemma parsed_segment_failure_witness :
  (segment_error backwards_segment
     ("Invalid segment duration: " ++ "00:30" ++ "-" ++ "00:10")
   = segment_error backwards_segment
       ("Invalid segment duration: " ++ start backwards_segment ++ "-"
        ++ end_ backwards_segment)
   /\ runs (log (process_segment sample_env "out" "out/temp_combined.mp4"
                   "libx264" "ultrafast" backwards_segment 1 1)) = [])
  \/ (exists command,
        runs (log (process_segment sample_env "out" "out/temp_combined.mp4"
                     "libx264" "ultrafast" backwards_segment 1 1)) = [command]).
Proof.
  exact (parsed_segment_failure ("00:30-00:10" ++ String LF "") [backwards_segment]
           sample_env "out" "out/temp_combined.mp4" "libx264" "ultrafast"
           backwards_segment 1 1 _ eq_refl (or_introl eq_refl) eq_refl).
Defined.
